(** * Smart-Grid-System: the edge ingestion pipeline and the central store

    A shallow embedding of [Edge Server/edge_server.py] (the validator
    [DataPreprocessor.clean_data], the per-city sliding-window detector
    [DataPreprocessor.detect_anomalies], the endpoint [receive_data] with its
    retry loop, the simulator's [start] and [stop]), of
    [Central Server/central_server.py] ([store_data], [get_city_stats]) and
    of [IOT Simulator/smart_meter.py] (the reading it builds and its sending
    loop).

    Python floats are IEEE-754 binary64 numbers: they are modelled by Rocq's
    primitive [float], whose operations are the same binary64 operations.
    Request bodies are JSON values.  What the interpreter and the third-party
    libraries supply (parsing a float out of a string, [datetime], [numpy]'s
    mean and standard deviation, the text of an exception) is gathered in the
    class [PyRuntime]; the HTTP session is a transition function on the state
    of whatever answers the requests. *)

From Stdlib Require Import ZArith Floats Ascii.
From stdpp Require Import gmap strings list sorting.

#[local] Set Warnings "-register-all".

(** ** Python values *)

Module Py.

(** What [request.json] yields: [None], [bool], [int], [float], [str],
    [list], [dict].  A dict is kept as an association list in which the
    first binding of a key is the dict's binding. *)
Inductive json :=
| JNull
| JBool (b : bool)
| JInt (z : Z)
| JFloat (f : float)
| JStr (s : string)
| JArr (items : list json)
| JObj (fields : list (string * json)).

(** The exceptions the three programs can meet, by class. *)
Inductive exn :=
| KeyError (key : string)
| TypeError (operation : string)
| ValueError (operation : string)
| AttributeError (attribute : string)
| OverflowError
| RequestException (detail : string)
| DatabaseError (detail : string)
| OtherException (detail : string).

Inductive result (A : Type) :=
| Ok (a : A)
| Raise (e : exn).
Arguments Ok {A} a.
Arguments Raise {A} e.

Definition rbind {A B} (m : result A) (k : A -> result B) : result B :=
  match m with
  | Ok a => k a
  | Raise e => Raise e
  end.

Definition is_ok {A} (m : result A) : bool :=
  match m with Ok _ => true | Raise _ => false end.

(** [isinstance(e, requests.exceptions.RequestException)] *)
Definition is_request_exception (e : exn) : bool :=
  match e with RequestException _ => true | _ => false end.

Fixpoint assoc (k : string) (fields : list (string * json)) : option json :=
  match fields with
  | [] => None
  | (k', v) :: rest => if String.eqb k k' then Some v else assoc k rest
  end.

(** [j[k]] for a string [k]: a [KeyError] on a dict without the key, a
    [TypeError] on everything that is not a dict. *)
Definition subscript (j : json) (k : string) : result json :=
  match j with
  | JObj fields =>
      match assoc k fields with
      | Some v => Ok v
      | None => Raise (KeyError k)
      end
  | _ => Raise (TypeError "subscript")
  end.

(** [j.get(k, d)]: only a dict has the method. *)
Definition dict_get (j : json) (k : string) (d : json) : result json :=
  match j with
  | JObj fields => Ok (default d (assoc k fields))
  | _ => Raise (AttributeError "get")
  end.

(** [float(z)] for an [int]: the nearest binary64 number, ties to even;
    [OverflowError] when that is beyond the largest finite float. *)
Definition float_of_int (z : Z) : result float :=
  let f := SF2Prim (binary_normalize prec emax z 0 false) in
  if PrimFloat.is_infinity f then Raise OverflowError else Ok f.

(** The truth value [bool(j)]. *)
Definition truthy (j : json) : bool :=
  match j with
  | JNull => false
  | JBool b => b
  | JInt z => negb (z =? 0)%Z
  | JFloat f => negb (PrimFloat.eqb f 0)
  | JStr s => negb (String.eqb s "")
  | JArr items => match items with [] => false | _ => true end
  | JObj fields => match fields with [] => false | _ => true end
  end.

(** What [json.dumps(j, allow_nan=False)] takes: every float in [j] is
    finite.  [requests] serialises the [json=] argument of a call this way
    and raises [InvalidJSONError], a [RequestException], otherwise.  A
    binding that an earlier one of the same key shadows is no part of the
    dict. *)
Fixpoint json_compliant (j : json) : bool :=
  match j with
  | JFloat f => PrimFloat.is_finite f
  | JArr items => forallb json_compliant items
  | JObj fields =>
      (fix bindings (seen : list string) (l : list (string * json)) : bool :=
         match l with
         | [] => true
         | (k, v) :: rest =>
             (if existsb (String.eqb k) seen then true else json_compliant v)
             && bindings (k :: seen) rest
         end) [] fields
  | JNull | JBool _ | JInt _ | JStr _ => true
  end.

(** [s.replace('Z', '+00:00')] *)
Fixpoint replace_Z (s : string) : string :=
  match s with
  | EmptyString => EmptyString
  | String c rest =>
      if Ascii.eqb c "Z"%char then "+00:00" +:+ replace_Z rest
      else String c (replace_Z rest)
  end.

(** [jsonify({"status": ..., "message": ...}), code] *)
Record http_response := {
  resp_code : Z;
  resp_status : string;
  resp_message : string
}.

(** *** Dictionary keys

    [readings_buffer] is keyed by the raw [reading['city']].  Python
    compares keys with [==] after hashing: [True == 1 == 1.0], so a number
    is keyed by its exact value; lists and dicts are unhashable.  A NaN is
    equal to nothing, itself included, but a dict finds a key that is the
    same object before it compares, and every [NaN] of a request body is
    the one object the [json] decoder keeps for that literal: all NaN
    cities share one entry. *)
Inductive pykey :=
| KNone
| KNaN
| KInt (z : Z)
| KFrac (neg : bool) (m : positive) (e : Z)
| KInf (neg : bool)
| KStr (s : string).

#[global] Instance pykey_eq_dec : EqDecision pykey.
Proof. solve_decision. Defined.

Definition pykey_code (k : pykey) : bool + Z + (bool * positive * Z) + bool + string :=
  match k with
  | KNone => inl (inl (inl (inl false)))
  | KNaN => inl (inl (inl (inl true)))
  | KInt z => inl (inl (inl (inr z)))
  | KFrac s m e => inl (inl (inr (s, m, e)))
  | KInf s => inl (inr s)
  | KStr s => inr s
  end.

Definition pykey_decode (c : bool + Z + (bool * positive * Z) + bool + string) : pykey :=
  match c with
  | inl (inl (inl (inl false))) => KNone
  | inl (inl (inl (inl true))) => KNaN
  | inl (inl (inl (inr z))) => KInt z
  | inl (inl (inr (s, m, e))) => KFrac s m e
  | inl (inr s) => KInf s
  | inr s => KStr s
  end.

#[global] Instance pykey_countable : Countable pykey.
Proof.
  apply (inj_countable' pykey_code pykey_decode).
  intros []; reflexivity.
Defined.

Inductive hashed :=
| Unhashable
| Key (k : pykey).

Definition float_key (f : float) : hashed :=
  match Prim2SF f with
  | S754_zero _ => Key (KInt 0)
  | S754_infinity s => Key (KInf s)
  | S754_nan => Key KNaN
  | S754_finite s m e =>
      if (0 <=? e)%Z then Key (KInt (cond_Zopp s (Z.pos m * 2 ^ e)))
      else if (Z.pos m mod 2 ^ (- e) =? 0)%Z
           then Key (KInt (cond_Zopp s (Z.pos m / 2 ^ (- e))))
           else Key (KFrac s m e)
  end.

Definition dict_key (j : json) : hashed :=
  match j with
  | JNull => Key KNone
  | JBool b => Key (KInt (if b then 1 else 0))
  | JInt z => Key (KInt z)
  | JFloat f => float_key f
  | JStr s => Key (KStr s)
  | JArr _ | JObj _ => Unhashable
  end.

(** *** The runtime

    The parts of CPython, [datetime], [numpy] and the exception machinery
    that the programs call and that are not their own code. *)
Class PyRuntime := {
  datetime : Type;
  (** [float(s)] for a [str] *)
  float_of_str : string -> result float;
  (** [str(j)] for a value that is not a [str] *)
  repr : json -> string;
  (** [datetime.fromisoformat] *)
  fromisoformat : string -> result datetime;
  (** [d.isoformat()] *)
  isoformat : datetime -> string;
  (** [str(e)] for an exception *)
  exn_text : exn -> string;
  (** [np.mean], [np.std] on a list of floats *)
  np_mean : list float -> float;
  np_std : list float -> float
}.

Section Coercions.
Context `{RT : PyRuntime}.

(** [float(j)] *)
Definition py_float (j : json) : result float :=
  match j with
  | JBool b => Ok (if b then 1%float else 0%float)
  | JInt z => float_of_int z
  | JFloat f => Ok f
  | JStr s => float_of_str s
  | JNull | JArr _ | JObj _ => Raise (TypeError "float")
  end.

(** [str(j)] *)
Definition py_str (j : json) : string :=
  match j with
  | JStr s => s
  | _ => repr j
  end.
End Coercions.

End Py.

(** ** The edge server *)

Module Edge.
Import Py.

(** Configuration.  The bounds are [int]s in the source; Python compares an
    [int] with a [float] by value, and 220, 240, 5 and 15 are binary64
    numbers. *)
Definition WINDOW_SIZE : nat := 10.
Definition VOLTAGE_THRESHOLD : float * float := (220%float, 240%float).
Definition CURRENT_THRESHOLD : float * float := (5%float, 15%float).

(** [formatted_reading], the dict [clean_data] builds: its eight keys. *)
Record reading := {
  voltage : float;
  current : float;
  power_consumption : float;
  city : string;
  timestamp : string;
  status : string;
  flagged : bool;
  anomaly : bool
}.

(** [reading['anomaly'] = b] *)
Definition set_anomaly (b : bool) (r : reading) : reading :=
  {| voltage := voltage r; current := current r;
     power_consumption := power_consumption r; city := city r;
     timestamp := timestamp r; status := status r; flagged := flagged r;
     anomaly := b |}.

(** [lo <= x <= hi] *)
Definition between (range : float * float) (x : float) : bool :=
  PrimFloat.leb (fst range) x && PrimFloat.leb x (snd range).

(** [list.append] followed by the guarded [pop(0)] of lines 147-151. *)
Definition push_window {A} (w : list A) (x : A) : list A :=
  let w1 := w ++ [x] in
  if decide (WINDOW_SIZE < length w1) then drop 1 w1 else w1.

Section DataPreprocessor.
Context `{RT : PyRuntime}.

(** [DataPreprocessor.clean_data] (lines 101-139).  The [except] clause
    logs and re-raises, so an exception leaves as it arose. *)
Definition clean_data (r : json) : result reading :=
  rbind (rbind (subscript r "voltage") py_float) (fun v =>
  rbind (rbind (subscript r "current") py_float) (fun i =>
  rbind (rbind (subscript r "power_consumption") py_float) (fun p =>
  rbind (subscript r "timestamp") (fun ts =>
  rbind (match ts with
         | JStr s => rbind (fromisoformat (replace_Z s)) (fun d => Ok (Some d))
         | _ => Ok None
         end) (fun parsed =>
  rbind (subscript r "city") (fun c =>
  rbind (match parsed with
         | Some d => Ok (isoformat d)
         | None => Raise (AttributeError "isoformat")
         end) (fun iso =>
  let is_valid := between VOLTAGE_THRESHOLD v && between CURRENT_THRESHOLD i in
  Ok {| voltage := v; current := i; power_consumption := p;
        city := py_str c; timestamp := iso;
        status := if is_valid then "valid" else "invalid";
        flagged := negb is_valid;
        anomaly := false |}))))))).

(** The score of lines 153-165 on the window as it stands after the
    append and the eviction. *)
Definition score (window : list reading) (r : reading) : bool :=
  if decide (WINDOW_SIZE <= length window) then
    let power_values := power_consumption <$> window in
    let mean_power := np_mean power_values in
    let std_power := np_std power_values in
    let current_power := power_consumption r in
    let z_score :=
      if PrimFloat.ltb 0 std_power
      then PrimFloat.abs (PrimFloat.div (PrimFloat.sub current_power mean_power) std_power)
      else 0%float in
    PrimFloat.ltb 3 z_score
  else false.

(** [DataPreprocessor.detect_anomalies] (lines 141-170) at the key the
    [city] argument hashes to.  The buffer holds the reading object
    itself, so the assignment to [reading['anomaly']] shows in the
    window's last entry too. *)
Definition detect_anomalies (buffer : gmap pykey (list reading))
    (k : pykey) (r : reading) : gmap pykey (list reading) * reading :=
  let before := default [] (buffer !! k) in
  let r' := set_anomaly (score (push_window before r) r) r in
  (<[k := push_window before r']> buffer, r').
End DataPreprocessor.

(** *** The endpoint [receive_data] (lines 410-475) *)

(** What a call of [session.post] comes to: a response, with its status
    code and with what [response.json()] would return or raise, or an
    exception out of the call.  The adapter's own transport-level retries
    ([retry_strategy], lines 86-95) happen inside one such call. *)
Inductive post_outcome :=
| PostResponse (status_code : Z) (body : result json)
| PostRaises (e : exn).

(** What one request does, in order: the detector is entered, the payload
    is posted, the handler sleeps. *)
Inductive event :=
| EvDetect (key : hashed) (r : reading)
| EvPost (payload : json)
| EvSleep (seconds : Z).

Definition is_post (ev : event) : bool :=
  match ev with EvPost _ => true | _ => false end.

Definition is_detect (ev : event) : bool :=
  match ev with EvDetect _ _ => true | _ => false end.

(** The process state: [preprocessor.readings_buffer], the state of the
    peer behind [session], and the events so far. *)
Record world (S : Type) := {
  readings_buffer : gmap pykey (list reading);
  store : S;
  trace : list event
}.
Arguments readings_buffer {S} w.
Arguments store {S} w.
Arguments trace {S} w.

Definition max_retries : nat := 3.
Definition retry_delay : Z := 1.

Definition delivered : http_response :=
  {| resp_code := 200; resp_status := "success";
     resp_message := "Data processed and forwarded" |}.

Definition network_error : http_response :=
  {| resp_code := 500; resp_status := "error";
     resp_message := "Network error after multiple retries" |}.

Section Endpoint.
Context `{RT : PyRuntime} {S : Type}.
Variable session_post : S -> json -> post_outcome * S.

(** Code that may raise and that changes the process state. *)
Definition M (A : Type) : Type := world S -> result A * world S.

Definition ret {A} (a : A) : M A := fun w => (Ok a, w).

Definition bind {A B} (m : M A) (k : A -> M B) : M B :=
  fun w => match m w with
           | (Ok a, w') => k a w'
           | (Raise e, w') => (Raise e, w')
           end.

Definition lift {A} (m : result A) : M A := fun w => (m, w).

Definition emit (ev : event) : M unit :=
  fun w => (Ok tt, {| readings_buffer := readings_buffer w;
                      store := store w;
                      trace := trace w ++ [ev] |}).

Notation "'do' x <- m ; k" := (bind m (fun x => k))
  (at level 10, x name, m at level 100, k at level 200, only parsing).

(** [preprocessor.detect_anomalies(reading['city'], cleaned_reading)]:
    an unhashable city raises at [city not in self.readings_buffer]. *)
Definition call_detect_anomalies (c : json) (r : reading) : M reading :=
  do _ <- emit (EvDetect (dict_key c) r);
  match dict_key c with
  | Unhashable => lift (Raise (TypeError "unhashable"))
  | Key k =>
      fun w =>
        let '(buffer', r') := detect_anomalies (readings_buffer w) k r in
        (Ok r', {| readings_buffer := buffer'; store := store w;
                   trace := trace w |})
  end.

(** The dict [required_fields] (lines 424-439), as the JSON body sent. *)
Definition required_fields (r : json) (processed : reading) : result json :=
  rbind (rbind (subscript r "temperature") py_float) (fun temperature =>
  rbind (rbind (subscript r "humidity") py_float) (fun humidity =>
  rbind (subscript r "zone_distribution") (fun zone_distribution =>
  rbind (subscript r "is_peak_hour") (fun is_peak_hour =>
  rbind (rbind (subscript r "per_capita_consumption") py_float) (fun per_capita =>
  rbind (rbind (subscript r "efficiency_score") py_float) (fun efficiency =>
  Ok (JObj [
    ("city", JStr (city processed));
    ("timestamp", JStr (timestamp processed));
    ("voltage", JFloat (voltage processed));
    ("current", JFloat (current processed));
    ("power_consumption", JFloat (power_consumption processed));
    ("status", JStr (status processed));
    ("flagged", JBool (flagged processed));
    ("anomaly", JBool (anomaly processed));
    ("temperature", JFloat temperature);
    ("humidity", JFloat humidity);
    ("zone_distribution", zone_distribution);
    ("is_peak_hour", JBool (truthy is_peak_hour));
    ("per_capita_consumption", JFloat per_capita);
    ("efficiency_score", JFloat efficiency)
  ]))))))).

(** Lines 414-439: everything before the retry loop. *)
Definition prepare (r : json) : M json :=
  do c <- lift (subscript r "city");
  do cleaned_reading <- lift (clean_data r);
  do processed_reading <- call_detect_anomalies c cleaned_reading;
  lift (required_fields r processed_reading).

(** [f"Failed to forward data after {max_retries} attempts: {error_msg}"] *)
Definition failed_after (error_msg : json) : http_response :=
  {| resp_code := 500; resp_status := "error";
     resp_message := "Failed to forward data after 3 attempts: " +:+ py_str error_msg |}.

Definition session_post_call (payload : json) : world S -> post_outcome * world S :=
  fun w =>
    let '(o, s') := session_post (store w) payload in
    (o, {| readings_buffer := readings_buffer w; store := s';
           trace := trace w ++ [EvPost payload] |}).

(** The loop [for attempt in range(max_retries)] (lines 445-471).
    [None] is the loop running out without a [return]. *)
Fixpoint forward (attempts : list nat) (payload : json) : M (option http_response) :=
  match attempts with
  | [] => ret None
  | attempt :: rest =>
      fun w =>
        let '(o, w1) := session_post_call payload w in
        let retry_or (final : http_response) :=
          if decide (attempt < max_retries - 1)
          then bind (emit (EvSleep (retry_delay * 2 ^ Z.of_nat attempt)))
                    (fun _ => forward rest payload) w1
          else (Ok (Some final), w1) in
        match o with
        | PostResponse status_code body =>
            if (status_code =? 200)%Z then (Ok (Some delivered), w1)
            else
              match rbind body (fun j => dict_get j "message" (JStr "Unknown error")) with
              | Ok error_msg => retry_or (failed_after error_msg)
              | Raise e =>
                  if is_request_exception e then retry_or network_error
                  else (Raise e, w1)
              end
        | PostRaises e =>
            if is_request_exception e then retry_or network_error
            else (Raise e, w1)
        end
  end.

(** [receive_data]: the outer [except Exception] turns whatever was
    raised into a 500 with the exception's text.  [None] stands for the
    view function returning without a response. *)
Definition receive_data (r : json) (w : world S) : option http_response * world S :=
  match bind (prepare r) (forward (seq 0 max_retries)) w with
  | (Ok response, w') => (response, w')
  | (Raise e, w') =>
      (Some {| resp_code := 500; resp_status := "error";
               resp_message := exn_text e |}, w')
  end.
End Endpoint.

End Edge.

(** ** The central server *)

Module Central.
Import Py.

(** A row of [power_readings], without the generated [id].  The columns
    bound straight from the request keep the JSON value they were given. *)
Record row := {
  city : json;
  timestamp : json;
  voltage : float;
  current : float;
  power_consumption : float;
  temperature : float;
  humidity : float;
  is_anomaly : Z;
  is_peak_hour : Z;
  zone_industrial : json;
  zone_residential : json;
  zone_commercial : json;
  per_capita_consumption : float;
  efficiency_score : float
}.

Definition stored : http_response :=
  {| resp_code := 200; resp_status := "success";
     resp_message := "Data stored successfully" |}.

Section Store.
Context `{RT : PyRuntime}.
(** [c.execute('INSERT ...', params)] with [conn.commit()]: [sqlite3]
    either takes the row or raises. *)
Variable execute_insert : row -> result unit.

(** The parameter tuple of lines 68-96, in evaluation order. *)
Definition insert_params (data : json) : result row :=
  rbind (dict_get data "zone_distribution" (JObj [])) (fun zone_dist =>
  rbind (dict_get data "is_anomaly" (JBool false)) (fun anomaly_field =>
  let is_anomaly := if truthy anomaly_field then 1%Z else 0%Z in
  rbind (dict_get data "is_peak_hour" (JBool false)) (fun peak_field =>
  let is_peak_hour := if truthy peak_field then 1%Z else 0%Z in
  rbind (subscript data "city") (fun c =>
  rbind (subscript data "timestamp") (fun ts =>
  rbind (rbind (subscript data "voltage") py_float) (fun v =>
  rbind (rbind (subscript data "current") py_float) (fun i =>
  rbind (rbind (subscript data "power_consumption") py_float) (fun p =>
  rbind (rbind (dict_get data "temperature" (JInt 0)) py_float) (fun t =>
  rbind (rbind (dict_get data "humidity" (JInt 0)) py_float) (fun h =>
  rbind (dict_get zone_dist "industrial" (JInt 0)) (fun zi =>
  rbind (dict_get zone_dist "residential" (JInt 0)) (fun zr =>
  rbind (dict_get zone_dist "commercial" (JInt 0)) (fun zc =>
  rbind (rbind (dict_get data "per_capita_consumption" (JInt 0)) py_float) (fun pc =>
  rbind (rbind (dict_get data "efficiency_score" (JInt 0)) py_float) (fun es =>
  Ok {| city := c; timestamp := ts; voltage := v; current := i;
        power_consumption := p; temperature := t; humidity := h;
        is_anomaly := is_anomaly; is_peak_hour := is_peak_hour;
        zone_industrial := zi; zone_residential := zr;
        zone_commercial := zc; per_capita_consumption := pc;
        efficiency_score := es |}))))))))))))))).

(** [store_data] (lines 58-105) on the table's rows. *)
Definition store_data (table : list row) (data : json) : http_response * list row :=
  match rbind (insert_params data) (fun r => rbind (execute_insert r) (fun _ => Ok r)) with
  | Ok r => (stored, table ++ [r])
  | Raise e =>
      ({| resp_code := 500; resp_status := "error";
          resp_message := exn_text e |}, table)
  end.

(** The central server behind the edge server's [session].  A payload
    with a NaN or an infinity in it is refused by [requests] before
    anything is sent; every other body arrives as it was sent and the
    answer comes back as it was given. *)
Definition central_session (table : list row) (payload : json)
    : Edge.post_outcome * list row :=
  if json_compliant payload then
    let '(response, table') := store_data table payload in
    (Edge.PostResponse (resp_code response)
       (Ok (JObj [("status", JStr (resp_status response));
                  ("message", JStr (resp_message response))])),
     table')
  else
    (Edge.PostRaises
       (RequestException "Out of range float values are not JSON compliant"),
     table).
End Store.

End Central.

(** ** Two requests for one city at once

    Flask serves each request on a thread of its own and
    [detect_anomalies] takes no lock.  The statements of lines 144-151 that
    touch [readings_buffer] are taken one at a time, each as a single step;
    a schedule says which thread moves next. *)

Module Threads.
Import Py.

Inductive pc :=
| AtCheck     (* line 144: [if city not in self.readings_buffer] *)
| AtCreate    (* line 145: [self.readings_buffer[city] = []] *)
| AtAppend    (* line 147: [self.readings_buffer[city].append(reading)] *)
| AtLen       (* line 150: [if len(self.readings_buffer[city]) > WINDOW_SIZE] *)
| AtPop       (* line 151: [self.readings_buffer[city].pop(0)] *)
| Done.

Record thread := {
  at_pc : pc;
  key : pykey;
  item : Edge.reading
}.

Definition start (k : pykey) (r : Edge.reading) : thread :=
  {| at_pc := AtCheck; key := k; item := r |}.

Definition goto (p : pc) (t : thread) : thread :=
  {| at_pc := p; key := key t; item := item t |}.

Definition step (buffer : gmap pykey (list Edge.reading)) (t : thread)
    : gmap pykey (list Edge.reading) * thread :=
  match at_pc t with
  | AtCheck =>
      (buffer, goto (if decide (is_Some (buffer !! key t)) then AtAppend else AtCreate) t)
  | AtCreate => (<[key t := []]> buffer, goto AtAppend t)
  | AtAppend => (alter (fun w => w ++ [item t]) (key t) buffer, goto AtLen t)
  | AtLen =>
      (buffer,
       goto (if decide (Edge.WINDOW_SIZE < length (default [] (buffer !! key t)))
             then AtPop else Done) t)
  | AtPop => (alter (drop 1) (key t) buffer, goto Done t)
  | Done => (buffer, t)
  end.

Record state := {
  buffer : gmap pykey (list Edge.reading);
  first : thread;
  second : thread
}.

(** One move of the thread the scheduler picks ([false]: the first). *)
Definition move (st : state) (who : bool) : state :=
  if who
  then let '(b, t) := step (buffer st) (second st) in
       {| buffer := b; first := first st; second := t |}
  else let '(b, t) := step (buffer st) (first st) in
       {| buffer := b; first := t; second := second st |}.

Definition run (st : state) (schedule : list bool) : state :=
  foldl move st schedule.

Definition finished (st : state) : bool :=
  match at_pc (first st), at_pc (second st) with
  | Done, Done => true
  | _, _ => false
  end.

(** The window as one whole invocation leaves it. *)
Definition serial (w : list Edge.reading) (r1 r2 : Edge.reading) : list Edge.reading :=
  Edge.push_window (Edge.push_window w r1) r2.
End Threads.

(** ** The detector as the specification words it

    The five steps of the specification's algorithm, on windows of power
    values, with the mean and the population standard deviation taken from
    the same [numpy]. *)

Module Reference.
Import Py.

Definition N : nat := Edge.WINDOW_SIZE.

Section Detector.
Context `{RT : PyRuntime}.

Definition detector_step (windows : gmap pykey (list float)) (k : pykey)
    (current_value : float) : gmap pykey (list float) * bool :=
  (* 1. append; evict the oldest if the window now holds more than N *)
  let appended := default [] (windows !! k) ++ [current_value] in
  let window := if decide (N < length appended) then drop 1 appended else appended in
  let anomaly :=
    (* 2. cold start *)
    if decide (length window < N) then false
    else
      (* 3. mean and standard deviation after the append *)
      let mu := np_mean window in
      let sigma := np_std window in
      (* 4. flat window *)
      if PrimFloat.eqb sigma 0 then false
      (* 5. z = |current_value - mu| / sigma; anomaly = z > 3.0 *)
      else PrimFloat.ltb 3 (PrimFloat.div (PrimFloat.abs (PrimFloat.sub current_value mu)) sigma) in
  (<[k := window]> windows, anomaly).

Fixpoint detector_run (windows : gmap pykey (list float))
    (inputs : list (pykey * float)) : list bool :=
  match inputs with
  | [] => []
  | (k, x) :: rest =>
      let '(windows', anomaly) := detector_step windows k x in
      anomaly :: detector_run windows' rest
  end.
End Detector.
End Reference.

(** ** Runs of the detector, and a runtime to run examples with *)

Module Runs.
Import Py.

Section Runs.
Context `{RT : PyRuntime}.

(** The detector called on one reading after another; the readings it
    returned, oldest first. *)
Fixpoint feed (buffer : gmap pykey (list Edge.reading))
    (inputs : list (pykey * Edge.reading))
    : gmap pykey (list Edge.reading) * list (pykey * Edge.reading) :=
  match inputs with
  | [] => (buffer, [])
  | (k, r) :: rest =>
      let '(buffer', r') := Edge.detect_anomalies buffer k r in
      let '(final, returned) := feed buffer' rest in
      (final, (k, r') :: returned)
  end.
End Runs.

(** The readings of city [k] among [l], in order. *)
Definition of_city {A} (k : pykey) (l : list (pykey * A)) : list A :=
  snd <$> filter (fun p => fst p = k) l.

Definition last_n {A} (n : nat) (l : list A) : list A :=
  drop (length l - n) l.

(** The power values the windows hold. *)
Definition powers (buffer : gmap pykey (list Edge.reading)) : gmap pykey (list float) :=
  (fun w : list Edge.reading => Edge.power_consumption <$> w) <$> buffer.
End Runs.

Module Sample.
Import Py.

Definition float_of_nat (n : nat) : float :=
  SF2Prim (binary_normalize prec emax (Z.of_nat n) 0 false).

(** A mean and a population standard deviation for the examples, summing
    left to right.  ([numpy] adds in another order, so that its results can
    differ from these in the last place; the theorems take [np_mean] and
    [np_std] as the runtime gives them.) *)
Definition mean (xs : list float) : float :=
  PrimFloat.div (foldl PrimFloat.add 0%float xs) (float_of_nat (length xs)).

Definition std (xs : list float) : float :=
  let m := mean xs in
  PrimFloat.sqrt (mean ((fun x => PrimFloat.mul (PrimFloat.sub x m) (PrimFloat.sub x m)) <$> xs)).

(** A fragment of the runtime, enough for the examples below: one
    timestamp, no numbers written as strings. *)
Definition runtime : PyRuntime := {|
  datetime := string;
  float_of_str := fun _ => Raise (ValueError "float");
  repr := fun j => match j with
                   | JNull => "None"
                   | JBool true => "True"
                   | JBool false => "False"
                   | _ => "?"
                   end;
  fromisoformat := fun s =>
    if String.eqb s "2024-01-15T10:30:00" then Ok s
    else Raise (ValueError "fromisoformat");
  isoformat := fun d => d;
  exn_text := fun e => match e with
                       | KeyError k => "'" +:+ k +:+ "'"
                       | _ => "error"
                       end;
  np_mean := mean;
  np_std := std
|}.

Definition request (city_field : json) (v i p : float) (extra : list (string * json)) : json :=
  JObj ([("city", city_field); ("timestamp", JStr "2024-01-15T10:30:00");
         ("voltage", JFloat v); ("current", JFloat i);
         ("power_consumption", JFloat p)] ++ extra).

Definition enrichment : list (string * json) :=
  [("temperature", JFloat 30.5); ("humidity", JFloat 70);
   ("zone_distribution", JObj [("industrial", JFloat 300); ("residential", JFloat 500);
                               ("commercial", JFloat 200)]);
   ("is_peak_hour", JBool true);
   ("per_capita_consumption", JFloat 49.5); ("efficiency_score", JFloat 0.875)].

Definition mumbai (v i p : float) : json := request (JStr "Mumbai") v i p enrichment.

Definition a_reading (p : float) : Edge.reading :=
  {| Edge.voltage := 230; Edge.current := 10; Edge.power_consumption := p;
     Edge.city := "Mumbai"; Edge.timestamp := "2024-01-15T10:30:00";
     Edge.status := "valid"; Edge.flagged := false; Edge.anomaly := false |}.
End Sample.

(** ** The vocabulary of the statements *)

Module Claims.
Import Py.

(** [x] lies in the closed interval [range], in the order of binary64
    numbers (a NaN lies in no interval). *)
Definition in_closed_interval (range : float * float) (x : float) : Prop :=
  PrimFloat.leb (fst range) x = true /\ PrimFloat.leb x (snd range) = true.

(** Every window is the last [WINDOW_SIZE] readings returned for its city. *)
Definition windows_of (buffer : gmap pykey (list Edge.reading))
    (history : list (pykey * Edge.reading)) : Prop :=
  forall k, default [] (buffer !! k)
            = Runs.last_n Edge.WINDOW_SIZE (Runs.of_city k history).

(** What the retry loop leaves in the trace when it posts [n] times, the
    first of them being attempt [attempt]: after each post but the last, a
    sleep of [retry_delay * 2 ^ attempt] seconds. *)
Fixpoint posts_from (payload : json) (attempt n : nat) : list Edge.event :=
  match n with
  | 0 => []
  | S m =>
      Edge.EvPost payload ::
      match m with
      | 0 => []
      | S _ => Edge.EvSleep (Edge.retry_delay * 2 ^ Z.of_nat attempt)
               :: posts_from payload (S attempt) m
      end
  end.

Definition sleeps (evs : list Edge.event) : list Z :=
  omap (fun ev => match ev with Edge.EvSleep d => Some d | _ => None end) evs.

Definition count_posts (evs : list Edge.event) : nat :=
  length (filter (fun ev => Edge.is_post ev = true) evs).

(** A delivery attempt fails and the loop goes on: the call raises a
    network error, or the store answers with a status other than 200 and a
    body that is a JSON object or that [response.json()] cannot read (it
    raises a [RequestException] then). *)
Definition fails (o : Edge.post_outcome) : Prop :=
  match o with
  | Edge.PostResponse status_code (Ok (JObj _)) => status_code <> 200%Z
  | Edge.PostResponse _ (Ok _) => False
  | Edge.PostResponse status_code (Raise e) =>
      status_code <> 200%Z /\ is_request_exception e = true
  | Edge.PostRaises e => is_request_exception e = true
  end.

(** The store answers with a status other than 200 and a JSON body that is
    not an object: a list, a string, a number, [true], [false] or [null]. *)
Definition answers_no_object (o : Edge.post_outcome) : Prop :=
  match o with
  | Edge.PostResponse status_code (Ok (JObj _)) => False
  | Edge.PostResponse status_code (Ok _) => status_code <> 200%Z
  | _ => False
  end.

(** What the loop reports when a failed attempt was the last one: the
    message of the answer's body (lines 459 and 464), or the network error
    of line 471. *)
Definition report `{RT : PyRuntime} (o : Edge.post_outcome) : http_response :=
  match o with
  | Edge.PostResponse _ (Ok (JObj fields)) =>
      Edge.failed_after (default (JStr "Unknown error") (assoc "message" fields))
  | _ => Edge.network_error
  end.

(** The two answers with which the loop itself gives up. *)
Definition delivery_failure `{RT : PyRuntime} (d : http_response) : Prop :=
  d = Edge.network_error \/ exists error_msg, d = Edge.failed_after error_msg.


(** What the peer would answer to [n] posts of [payload] in a row. *)
Fixpoint outcomes {S} (session_post : S -> json -> Edge.post_outcome * S)
    (s : S) (payload : json) (n : nat) : list Edge.post_outcome :=
  match n with
  | 0 => []
  | S m =>
      let '(o, s') := session_post s payload in
      o :: outcomes session_post s' payload m
  end.

(** The terminal outcome [failed]: a 500 with status [error]. *)
Definition failed (response : result (option http_response)) : Prop :=
  exists r, response = Ok (Some r) /\ resp_code r = 500%Z /\ resp_status r = "error".

(** The events a request added to a trace that held [before]. *)
Definition added (before after : list Edge.event) : list Edge.event :=
  drop (length before) after.


(** A store that answers every post with the same status and message. *)
Definition answering (status_code : Z) (message : string)
    : unit -> json -> Edge.post_outcome * unit :=
  fun s _ =>
    (Edge.PostResponse status_code
       (Ok (JObj [("status", JStr "error"); ("message", JStr message)])), s).

(** A store that answers 500 to the first [n] posts and 200 from then on. *)
Definition failing_first (n : nat) : nat -> json -> Edge.post_outcome * nat :=
  fun calls _ =>
    (if decide (calls < n)
     then Edge.PostResponse 500 (Ok (JObj [("status", JStr "error");
                                           ("message", JStr "database is locked")]))
     else Edge.PostResponse 200 (Ok (JObj [("status", JStr "success");
                                           ("message", JStr "Data stored successfully")])),
     Datatypes.S calls).

Definition fresh {S} (s : S) : Edge.world S :=
  {| Edge.readings_buffer := ∅; Edge.store := s; Edge.trace := [] |}.

(** *** Readings, as the claims sort them *)

Section Readings.
Context `{RT : PyRuntime}.

(** [r[k]] is there and [float()] takes it. *)
Definition numeric (r : json) (k : string) : Prop :=
  exists x, rbind (subscript r k) py_float = Ok x.








(** The enrichment fields that [receive_data] reads are there, the numeric
    ones as numbers. *)
Definition enriched (r : json) : Prop :=
  numeric r "temperature" /\ numeric r "humidity"
  /\ (exists j, subscript r "zone_distribution" = Ok j)
  /\ (exists j, subscript r "is_peak_hour" = Ok j)
  /\ numeric r "per_capita_consumption" /\ numeric r "efficiency_score".

(** [r[k]], where it is a number, is neither a NaN nor an infinity. *)
Definition finite (r : json) (k : string) : Prop :=
  forall x, rbind (subscript r k) py_float = Ok x -> PrimFloat.is_finite x = true.

(** No number that [receive_data] puts in the payload is a NaN or an
    infinity: [requests] can serialise the payload. *)
Definition sendable (r : json) : Prop :=
  finite r "voltage" /\ finite r "current" /\ finite r "power_consumption"
  /\ finite r "temperature" /\ finite r "humidity"
  /\ (forall z, subscript r "zone_distribution" = Ok z -> json_compliant z = true)
  /\ finite r "per_capita_consumption" /\ finite r "efficiency_score".

(** The voltage or the current is outside its bounds. *)
Definition out_of_range (c : Edge.reading) : Prop :=
  ~ (in_closed_interval Edge.VOLTAGE_THRESHOLD (Edge.voltage c)
     /\ in_closed_interval Edge.CURRENT_THRESHOLD (Edge.current c)).
End Readings.

(** A store that takes every post. *)
Definition accepting : unit -> json -> Edge.post_outcome * unit :=
  fun s _ =>
    (Edge.PostResponse 200
       (Ok (JObj [("status", JStr "success");
                  ("message", JStr "Data stored successfully")])), s).

(** A database that takes every row. *)
Definition always_inserts : Central.row -> result unit := fun _ => Ok tt.

(** C9 as it is claimed: whatever the schedule, once both invocations are
    through, the city's window is what one of the two serial orders leaves. *)
Definition serialized : Prop :=
  forall (buffer : gmap pykey (list Edge.reading)) (k : pykey)
         (r1 r2 : Edge.reading) (schedule : list bool),
    let st := Threads.run {| Threads.buffer := buffer;
                             Threads.first := Threads.start k r1;
                             Threads.second := Threads.start k r2 |} schedule in
    Threads.finished st = true ->
    default [] (Threads.buffer st !! k) = Threads.serial (default [] (buffer !! k)) r1 r2
    \/ default [] (Threads.buffer st !! k) = Threads.serial (default [] (buffer !! k)) r2 r1.

End Claims.

(** ** The IoT simulator ([IOT Simulator/smart_meter.py]) *)

Module Meter.
Import Py.

(** [SmartMeter.__init__] (lines 28-33) *)
Definition base_voltage : float := 230%float.
Definition base_current : float := 10%float.

Section SmartMeter.
(** [round(x, 2)] *)
Variable round2 : float -> float.

(** [SmartMeter.generate_reading] (lines 35-58), given the two draws of
    [random.uniform] and [datetime.now().isoformat()]. *)
Definition generate_reading (city : string) (now : string)
    (voltage_variation current_variation : float) : json :=
  let voltage := PrimFloat.add base_voltage voltage_variation in
  let current := PrimFloat.add base_current current_variation in
  let power := PrimFloat.mul voltage current in
  JObj [("city", JStr city);
        ("timestamp", JStr now);
        ("voltage", JFloat (round2 voltage));
        ("current", JFloat (round2 current));
        ("power_consumption", JFloat (round2 power))].
End SmartMeter.

(** [check_edge_server] (lines 60-66): the bare [except] answers [False]. *)
Definition check_edge_server (health : Edge.post_outcome) : bool :=
  match health with
  | Edge.PostResponse status_code _ => (status_code =? 200)%Z
  | Edge.PostRaises _ => false
  end.

Definition max_consecutive_failures : nat := 5.

(** What one round of the loop of [simulate_city_data] meets: the answer to
    the health check, what [meter.generate_reading()] returned ([JNull] for
    [None]), the answer to the post, and the draw of
    [random.uniform(1, 5)]. *)
Record round := {
  health : Edge.post_outcome;
  generated : json;
  posted : Edge.post_outcome;
  delay : float
}.

Inductive event :=
| Send (reading : json)
| Wait (seconds : float).

(** One round of [while True] (lines 73-112) on [consecutive_failures]. *)
Definition step (consecutive_failures : nat) (t : round) : nat * list event :=
  if negb (check_edge_server (health t)) then (consecutive_failures, [Wait 5])
  else if negb (truthy (generated t)) then (consecutive_failures, [])
  else
    let failures :=
      match posted t with
      | Edge.PostResponse status_code _ =>
          if (status_code =? 200)%Z then 0 else S consecutive_failures
      | Edge.PostRaises _ => S consecutive_failures
      end in
    if decide (max_consecutive_failures <= failures)
    then (0, [Send (generated t); Wait 30])
    else (failures, [Send (generated t); Wait (delay t)]).

(** [simulate_city_data] through the given rounds. *)
Fixpoint simulate (consecutive_failures : nat) (rounds : list round)
    : nat * list event :=
  match rounds with
  | [] => (consecutive_failures, [])
  | t :: rest =>
      let '(failures, evs) := step consecutive_failures t in
      let '(final, more) := simulate failures rest in
      (final, evs ++ more)
  end.

(** How a round ends for the reading: nothing was sent, it was taken, it
    was not. *)
Inductive verdict := Skipped | Taken | Refused.

Definition verdict_of (t : round) : verdict :=
  if negb (check_edge_server (health t)) then Skipped
  else if negb (truthy (generated t)) then Skipped
  else match posted t with
       | Edge.PostResponse status_code _ =>
           if (status_code =? 200)%Z then Taken else Refused
       | Edge.PostRaises _ => Refused
       end.

(** The failures in a row at the end of the rounds, skipped rounds
    aside. *)
Definition in_a_row (rounds : list round) : nat :=
  foldl (fun n t => match verdict_of t with
                    | Skipped => n
                    | Taken => 0
                    | Refused => S n
                    end) 0 rounds.
End Meter.

(** ** The central server's query ([get_city_stats], [init_db]) *)

Module Stats.
Import Py.

(** [init_db] (lines 17-48): the database file is removed and the table made
    anew, so whatever was stored is gone. *)
Definition init_db (table : list Central.row) : list Central.row := [].

(** One reading of the answer: the columns of a row as
    [dict(zip(columns, row))] has them after lines 131-139.  A [REAL] column
    gives back a float or [None]. *)
Record reading := {
  id : Z;
  city : string;
  timestamp : string;
  voltage : json;
  current : json;
  power_consumption : json;
  temperature : json;
  humidity : json;
  is_anomaly : bool;
  is_peak_hour : bool;
  per_capita_consumption : json;
  efficiency_score : json;
  zone_industrial : json;
  zone_residential : json;
  zone_commercial : json
}.

(** The answer: [200] with status [success], the city and the readings, or
    [500] with status [error] and the exception's text. *)
Inductive response :=
| Readings (city : string) (readings : list reading)
| Failure (message : string).

(** The rows with the [id]s that [AUTOINCREMENT] gave them: 1, 2, ... in
    the order of insertion into the fresh table. *)
Definition numbered (table : list Central.row) : list (Z * Central.row) :=
  imap (fun i r => (Z.of_nat (S i), r)) table.

(** SQLite keeps a NaN as [NULL]. *)
Definition real_out (f : float) : json :=
  if PrimFloat.is_nan f then JNull else JFloat f.

(** [x or 0] *)
Definition or_zero (j : json) : json := if truthy j then j else JInt 0.

Section Query.
Context `{RT : PyRuntime}.
(** [(datetime.now() - timedelta(hours=hours)).isoformat()] *)
Variable time_threshold : Z -> result string.
(** What a [TEXT] column holds for a bound value that is not a [str]. *)
Variable stored_text : json -> string.
(** What a [REAL] column without [NOT NULL] gives back for a bound value. *)
Variable real_affinity : json -> json.
(** [ORDER BY timestamp DESC], as the engine orders the selected rows. *)
Variable order_by_timestamp_desc : list (Z * Central.row) -> list (Z * Central.row).

Definition column_text (j : json) : string :=
  match j with
  | JStr s => s
  | _ => stored_text j
  end.

(** [WHERE city = ? AND timestamp > ?]: texts compared byte by byte. *)
Definition selected (city : string) (threshold : string) (p : Z * Central.row) : bool :=
  String.eqb (column_text (Central.city (snd p))) city
  && String.ltb threshold (column_text (Central.timestamp (snd p))).

(** Lines 129-140 on one fetched row. *)
Definition to_reading (p : Z * Central.row) : reading :=
  let r := snd p in
  {| id := fst p;
     city := column_text (Central.city r);
     timestamp := column_text (Central.timestamp r);
     voltage := real_out (Central.voltage r);
     current := real_out (Central.current r);
     power_consumption := real_out (Central.power_consumption r);
     temperature := real_out (Central.temperature r);
     humidity := real_out (Central.humidity r);
     is_anomaly := negb (Central.is_anomaly r =? 0)%Z;
     is_peak_hour := negb (Central.is_peak_hour r =? 0)%Z;
     per_capita_consumption := real_out (Central.per_capita_consumption r);
     efficiency_score := real_out (Central.efficiency_score r);
     zone_industrial := or_zero (real_affinity (Central.zone_industrial r));
     zone_residential := or_zero (real_affinity (Central.zone_residential r));
     zone_commercial := or_zero (real_affinity (Central.zone_commercial r)) |}.

(** [get_city_stats] (lines 107-160).  [hours] is the query argument read
    with [type=int]: [None] when it is absent or no integer, and then 24. *)
Definition get_city_stats (table : list Central.row) (city : string)
    (hours : option Z) : response :=
  match time_threshold (default 24%Z hours) with
  | Raise e => Failure (exn_text e)
  | Ok threshold =>
      Readings city
        (to_reading <$> order_by_timestamp_desc
                          (filter (fun p => selected city threshold p = true)
                                  (numbered table)))
  end.
End Query.

(** Newest first, in the order of the texts. *)
Definition newest_first (a b : reading) : Prop :=
  String.leb (timestamp b) (timestamp a) = true.

Definition by_timestamp_desc (stored_text : json -> string) (a b : Z * Central.row) : Prop :=
  String.leb (column_text stored_text (Central.timestamp (snd b)))
             (column_text stored_text (Central.timestamp (snd a))) = true.
End Stats.

(** A database engine and a clock to run the query's examples with. *)

Module StatsSample.
Import Py.

Definition text (j : json) : string := "".

#[global] Instance by_timestamp_desc_dec (a b : Z * Central.row) :
  Decision (Stats.by_timestamp_desc text a b).
Proof. unfold Stats.by_timestamp_desc. apply _. Defined.

(** Rows ordered by a merge sort on the timestamp texts. *)
Definition order : list (Z * Central.row) -> list (Z * Central.row) :=
  merge_sort (Stats.by_timestamp_desc text).

(** The clock of the examples: every query is made at the moment at which
    the hours it asks for reach back to midnight of 15 January 2024 (at
    noon of the 15th when it asks for 12 hours). *)
Definition threshold : Z -> result string := fun _ => Ok "2024-01-15T00:00:00".

Definition a_row (c ts : string) (power : float) : Central.row :=
  {| Central.city := JStr c; Central.timestamp := JStr ts;
     Central.voltage := 230; Central.current := 10;
     Central.power_consumption := power;
     Central.temperature := 30; Central.humidity := 70;
     Central.is_anomaly := 0; Central.is_peak_hour := 1;
     Central.zone_industrial := JFloat 300; Central.zone_residential := JFloat 500;
     Central.zone_commercial := JInt 0;
     Central.per_capita_consumption := 49.5; Central.efficiency_score := 0.875 |}.

Definition table : list Central.row :=
  [a_row "Mumbai" "2024-01-15T10:30:00" 2300;
   a_row "Delhi" "2024-01-15T10:31:00" 2500;
   a_row "Mumbai" "2024-01-14T09:00:00" 2100;
   a_row "Mumbai" "2024-01-15T11:30:00" 2400].
End StatsSample.

(** ** The edge server's own simulator ([DataSimulator]) *)

Module Simulator.
Import Py.

(** [min(a, b)] and [max(a, b)] on floats: the first argument unless the
    second is smaller (larger). *)
Definition py_min (a b : float) : float := if PrimFloat.ltb b a then b else a.
Definition py_max (a b : float) : float := if PrimFloat.ltb a b then b else a.

(** [min(...)] of a sequence of [int]s that starts with [x]. *)
Definition min_of (x : Z) (rest : list Z) : Z :=
  foldl (fun m y => if (y <? m)%Z then y else m) x rest.

(** Lines 297-301 of [generate_reading]: [None] outside the peak hours,
    where nothing is computed; within them the factor by which
    [peak_variation] is multiplied.  [0.1] and [0.7] are the binary64
    numbers nearest to a tenth and to seven tenths. *)
Definition peak_factor (current_hour : Z) (peak_hours : list Z)
    : result (option float) :=
  if decide (current_hour ∈ peak_hours) then
    match (fun peak => Z.abs (current_hour - peak)) <$> peak_hours with
    | [] => Raise (ValueError "min")
    | d :: ds =>
        let time_to_peak := min_of d ds in
        rbind (float_of_int time_to_peak) (fun time_to_peak =>
        let peak_factor :=
          PrimFloat.sub 1 (PrimFloat.mul time_to_peak 0x1.999999999999ap-4%float) in
        Ok (Some (py_max 0x1.6666666666666p-1%float (py_min 1 peak_factor))))
    end
  else Ok None.

(** [DataSimulator]'s [running] and [thread] (lines 173-175), with the
    sender threads that are alive; a thread is named by the number of
    threads made before it. *)
Record simulator := {
  running : bool;
  thread : option nat;
  alive : list nat;
  made : nat
}.

(** [DataSimulator.__init__] *)
Definition init : simulator :=
  {| running := false; thread := None; alive := []; made := 0 |}.

(** [start] (lines 392-398) *)
Definition start (s : simulator) : simulator :=
  if running s then s
  else {| running := true; thread := Some (made s);
          alive := made s :: alive s; made := S (made s) |}.

(** [stop] (lines 400-405): the thread leaves [while self.running] and
    [join] returns once it has. *)
Definition stop (s : simulator) : simulator :=
  {| running := false; thread := thread s;
     alive := match thread s with
              | Some t => filter (fun t' : nat => t' <> t) (alive s)
              | None => alive s
              end;
     made := made s |}.

(** The requests [/start_simulation] ([true]) and [/stop_simulation], one
    after the other. *)
Definition requests (s : simulator) (calls : list bool) : simulator :=
  foldl (fun (s : simulator) (is_start : bool) => if is_start then start s else stop s)
    s calls.
End Simulator.

(** * Theorems *)

Import Py.

(** ** Results and floats *)

Lemma rbind_ok {A B} (m : result A) (k : A -> result B) (b : B) :
  rbind m k = Ok b <-> exists a, m = Ok a /\ k a = Ok b.
Proof.
  split.
  - destruct m as [a|e]; simpl; intros H; [eauto | discriminate].
  - intros (a & -> & H). exact H.
Qed.

Lemma rbind_raise {A B} (m : result A) (k : A -> result B) (e : exn) :
  m = Raise e -> rbind m k = Raise e.
Proof. intros ->. reflexivity. Qed.

Ltac rbind_inv H :=
  repeat match type of H with
  | rbind _ _ = Ok _ =>
      let a := fresh "a" in
      let Ha := fresh "Ha" in
      apply rbind_ok in H; destruct H as (a & Ha & H)
  end.

Lemma Prim2SF_three : Prim2SF 3 = S754_finite false 6755399441055744 (-51).
Proof. reflexivity. Qed.

Lemma Prim2SF_zero : Prim2SF 0 = S754_zero false.
Proof. reflexivity. Qed.

(** Rounding does not look at the sign. *)
Lemma SFabs_round_aux s m e l :
  SFabs (binary_round_aux prec emax s m e l) = binary_round_aux prec emax false m e l.
Proof.
  unfold binary_round_aux.
  destruct (shr_fexp prec emax m e l) as [mrs' e'].
  destruct (shr_fexp prec emax _ e' loc_Exact) as [mrs'' e''].
  destruct (shr_m mrs''); simpl; auto.
  destruct (Z.leb _ _); reflexivity.
Qed.

Lemma SFabs_div_pos x y :
  SFltb (S754_zero false) y = true ->
  SFabs (SF64div x y) = SF64div (SFabs x) y.
Proof.
  unfold SF64div, SFdiv.
  destruct x as [sx|sx| |sx mx ex], y as [sy|sy| |sy my ey]; simpl;
    try discriminate; try reflexivity;
    destruct sy; simpl; try discriminate; intros _;
    rewrite ?xorb_false_r; try reflexivity.
  destruct (SFdiv_core_binary prec emax (Z.pos mx) ex (Z.pos my) ey) as [[mz ez] lz].
  apply SFabs_round_aux.
Qed.

(** For a positive divisor, [abs (a / s)] and [abs a / s] are the same
    binary64 number. *)
Lemma abs_div_pos (a s : float) :
  PrimFloat.ltb 0 s = true ->
  PrimFloat.abs (PrimFloat.div a s) = PrimFloat.div (PrimFloat.abs a) s.
Proof.
  rewrite FloatAxioms.ltb_spec, Prim2SF_zero. intros Hpos.
  rewrite <- (SF2Prim_Prim2SF (PrimFloat.abs (PrimFloat.div a s))).
  rewrite <- (SF2Prim_Prim2SF (PrimFloat.div (PrimFloat.abs a) s)).
  f_equal. rewrite abs_spec, !div_spec, abs_spec.
  apply SFabs_div_pos, Hpos.
Qed.

(** A magnitude over a divisor that is not positive never exceeds 3: the
    quotient is a NaN, a zero, or negative. *)
Lemma abs_div_nonpos (a s : float) :
  PrimFloat.ltb 0 s = false ->
  PrimFloat.eqb s 0 = false ->
  PrimFloat.ltb 3 (PrimFloat.div (PrimFloat.abs a) s) = false.
Proof.
  rewrite (FloatAxioms.ltb_spec 0 s), (FloatAxioms.eqb_spec s 0), Prim2SF_zero.
  intros Hpos Hz.
  rewrite FloatAxioms.ltb_spec, div_spec, abs_spec, Prim2SF_three.
  unfold SF64div, SFdiv.
  destruct (Prim2SF a) as [sa|sa| |sa ma ea], (Prim2SF s) as [ss|ss| |ss ms es];
    simpl in *; try destruct ss; simpl in *; try discriminate; try reflexivity.
  destruct (SFdiv_core_binary prec emax (Z.pos ma) ea (Z.pos ms) es) as [[mz ez] lz].
  unfold binary_round_aux.
  destruct (shr_fexp prec emax mz ez lz) as [mrs' e'].
  destruct (shr_fexp prec emax _ e' loc_Exact) as [mrs'' e''].
  destruct (shr_m mrs''); simpl; auto.
  destruct (Z.leb _ _); reflexivity.
Qed.

Lemma pos_not_zero (s : float) :
  PrimFloat.ltb 0 s = true -> PrimFloat.eqb s 0 = false.
Proof.
  rewrite (FloatAxioms.ltb_spec 0 s), (FloatAxioms.eqb_spec s 0), Prim2SF_zero.
  destruct (Prim2SF s) as [[]|[]| |[] ? ?]; cbv; congruence.
Qed.

(** The test of lines 161-163 and the test of steps 4-5 agree on every
    value, mean and deviation. *)
Lemma z_score_agree (x mu sigma : float) :
  PrimFloat.ltb 3
    (if PrimFloat.ltb 0 sigma
     then PrimFloat.abs (PrimFloat.div (PrimFloat.sub x mu) sigma)
     else 0%float)
  = (if PrimFloat.eqb sigma 0 then false
     else PrimFloat.ltb 3 (PrimFloat.div (PrimFloat.abs (PrimFloat.sub x mu)) sigma)).
Proof.
  destruct (PrimFloat.ltb 0 sigma) eqn:Hpos.
  - rewrite (pos_not_zero _ Hpos), (abs_div_pos _ _ Hpos). reflexivity.
  - destruct (PrimFloat.eqb sigma 0) eqn:Hz; [reflexivity|].
    rewrite (abs_div_nonpos _ _ Hpos Hz). reflexivity.
Qed.

(** ** The validator *)

Section Validator.
Context `{RT : PyRuntime}.

Lemma clean_data_fields (r : json) (c : Edge.reading) :
  Edge.clean_data r = Ok c ->
  rbind (subscript r "voltage") py_float = Ok (Edge.voltage c)
  /\ rbind (subscript r "current") py_float = Ok (Edge.current c)
  /\ rbind (subscript r "power_consumption") py_float = Ok (Edge.power_consumption c)
  /\ (exists j, subscript r "city" = Ok j /\ Edge.city c = py_str j)
  /\ (exists s d, subscript r "timestamp" = Ok (JStr s)
                  /\ fromisoformat (replace_Z s) = Ok d
                  /\ Edge.timestamp c = isoformat d)
  /\ Edge.anomaly c = false
  /\ Edge.flagged c = negb (Edge.between Edge.VOLTAGE_THRESHOLD (Edge.voltage c)
                            && Edge.between Edge.CURRENT_THRESHOLD (Edge.current c))
  /\ Edge.status c = (if Edge.flagged c then "invalid" else "valid").
Proof.
  unfold Edge.clean_data. intros H.
  apply rbind_ok in H as (v & Hv & H).
  apply rbind_ok in H as (i & Hi & H).
  apply rbind_ok in H as (p & Hp & H).
  apply rbind_ok in H as (ts & Hts & H).
  apply rbind_ok in H as (parsed & Hparsed & H).
  apply rbind_ok in H as (j & Hj & H).
  apply rbind_ok in H as (iso & Hiso & H).
  injection H as <-. simpl.
  destruct parsed as [d|]; [|discriminate]. injection Hiso as <-.
  destruct ts as [| | | |s| |]; try discriminate.
  apply rbind_ok in Hparsed as (d' & Hd & Hd'). injection Hd' as ->.
  repeat split; eauto.
  destruct (_ && _); reflexivity.
Qed.

(** The flag is down exactly when both values are within their bounds. *)
Lemma clean_data_flagged (r : json) (c : Edge.reading) :
  Edge.clean_data r = Ok c ->
  (Claims.in_closed_interval Edge.VOLTAGE_THRESHOLD (Edge.voltage c)
   /\ Claims.in_closed_interval Edge.CURRENT_THRESHOLD (Edge.current c))
  <-> Edge.flagged c = false.
Proof.
  intros H.
  destruct (clean_data_fields r c H) as (_ & _ & _ & _ & _ & _ & Hflag & _).
  rewrite Hflag. unfold Claims.in_closed_interval, Edge.between.
  rewrite negb_false_iff, !andb_true_iff. tauto.
Qed.

(** C1.  A reading that passes validation is [valid] exactly when its voltage
    lies in [220, 240] and its current in [5, 15], [invalid] otherwise, and
    it is flagged exactly when it is [invalid]; the voltage and the current
    judged are the request's fields read as floats. *)
Theorem clean_data_status (r : json) (c : Edge.reading) :
  Edge.clean_data r = Ok c ->
  let inside :=
    Claims.in_closed_interval (220%float, 240%float) (Edge.voltage c)
    /\ Claims.in_closed_interval (5%float, 15%float) (Edge.current c) in
  rbind (subscript r "voltage") py_float = Ok (Edge.voltage c)
  /\ rbind (subscript r "current") py_float = Ok (Edge.current c)
  /\ (Edge.status c = "valid" <-> inside)
  /\ (Edge.status c = "invalid" <-> ~ inside)
  /\ (Edge.flagged c = true <-> Edge.status c = "invalid").
Proof.
  intros H inside.
  destruct (clean_data_fields r c H) as (Hv & Hi & _ & _ & _ & _ & _ & Hstatus).
  assert (Hin : inside <-> Edge.flagged c = false) by exact (clean_data_flagged r c H).
  split; [exact Hv|]. split; [exact Hi|].
  rewrite Hstatus, Hin.
  destruct (Edge.flagged c); repeat split; intros; try discriminate; try congruence; auto.
Qed.

End Validator.

(** A request in range, validated. *)
Lemma clean_data_status_witness :
  let r := Sample.mumbai 230.5 10 2300 in
  let c := {| Edge.voltage := 230.5; Edge.current := 10;
              Edge.power_consumption := 2300; Edge.city := "Mumbai";
              Edge.timestamp := "2024-01-15T10:30:00"; Edge.status := "valid";
              Edge.flagged := false; Edge.anomaly := false |} in
  Edge.clean_data (RT := Sample.runtime) r = Ok c
  /\ (Edge.status c = "valid" <->
      Claims.in_closed_interval (220%float, 240%float) (Edge.voltage c)
      /\ Claims.in_closed_interval (5%float, 15%float) (Edge.current c))
  /\ (Edge.flagged c = true <-> Edge.status c = "invalid").
Proof.
  intros r c.
  pose proof (clean_data_status (RT := Sample.runtime) r c eq_refl) as H.
  split; [reflexivity|]. split; apply H.
Defined.

(** ** The detector *)

Lemma push_window_fmap {A B} (f : A -> B) (w : list A) (x : A) :
  f <$> Edge.push_window w x = Edge.push_window (f <$> w) (f x).
Proof.
  unfold Edge.push_window.
  rewrite !length_app, length_fmap. simpl.
  case_decide; rewrite ?fmap_drop, fmap_app; reflexivity.
Qed.

Lemma push_window_length {A} (w : list A) (x : A) :
  length w <= Edge.WINDOW_SIZE ->
  length (Edge.push_window w x) <= Edge.WINDOW_SIZE.
Proof.
  unfold Edge.push_window. intros H.
  case_decide as Hlen; rewrite ?length_drop; rewrite length_app in *; simpl in *; lia.
Qed.

(** Appending to the last [WINDOW_SIZE] items of a history and evicting
    leaves the last [WINDOW_SIZE] items of the longer history. *)
Lemma push_window_last_n {A} (l : list A) (x : A) :
  Edge.push_window (Runs.last_n Edge.WINDOW_SIZE l) x
  = Runs.last_n Edge.WINDOW_SIZE (l ++ [x]).
Proof.
  unfold Edge.push_window, Runs.last_n, Edge.WINDOW_SIZE.
  rewrite !length_app, length_drop. simpl.
  case_decide as Hlen.
  - rewrite drop_app_le by (rewrite length_drop; lia).
    rewrite drop_drop, drop_app_le by lia.
    f_equal. f_equal. lia.
  - replace (length l - 10) with 0 by lia.
    replace (length l + 1 - 10) with 0 by lia. reflexivity.
Qed.

Lemma push_window_cases {A} (w : list A) (x : A) :
  length w <= Edge.WINDOW_SIZE ->
  Edge.push_window w x
  = (if decide (length w = Edge.WINDOW_SIZE) then drop 1 w else w) ++ [x].
Proof.
  unfold Edge.push_window, Edge.WINDOW_SIZE. intros H.
  rewrite length_app. simpl.
  repeat case_decide; try lia; [|reflexivity].
  destruct w; [simpl in *; lia|]. simpl. rewrite drop_0. reflexivity.
Qed.

Section Detector.
Context `{RT : PyRuntime}.

Lemma detect_anomalies_window (buffer : gmap pykey (list Edge.reading))
    (k : pykey) (r : Edge.reading) :
  let '(buffer', r') := Edge.detect_anomalies buffer k r in
  buffer' = <[k := Edge.push_window (default [] (buffer !! k)) r']> buffer
  /\ Edge.power_consumption r' = Edge.power_consumption r.
Proof. unfold Edge.detect_anomalies. split; reflexivity. Qed.

(** One call of the detector against one step of the specification's
    algorithm, on windows that hold the same power values. *)
Lemma detect_anomalies_step (buffer : gmap pykey (list Edge.reading))
    (k : pykey) (r : Edge.reading) :
  Reference.detector_step (Runs.powers buffer) k (Edge.power_consumption r)
  = (Runs.powers (fst (Edge.detect_anomalies buffer k r)),
     Edge.anomaly (snd (Edge.detect_anomalies buffer k r))).
Proof.
  unfold Edge.detect_anomalies, Reference.detector_step, Runs.powers.
  rewrite lookup_fmap.
  set (before := default [] (buffer !! k)).
  assert (Hbefore : default [] ((fun w : list Edge.reading => Edge.power_consumption <$> w)
                                  <$> buffer !! k)
                    = Edge.power_consumption <$> before).
  { subst before. destruct (buffer !! k); reflexivity. }
  rewrite Hbefore. clear Hbefore.
  set (r' := Edge.set_anomaly _ r).
  assert (Hwin : forall x : Edge.reading,
             Edge.power_consumption x = Edge.power_consumption r ->
             (if decide (Reference.N < length ((Edge.power_consumption <$> before)
                                               ++ [Edge.power_consumption r]))
              then drop 1 ((Edge.power_consumption <$> before) ++ [Edge.power_consumption r])
              else (Edge.power_consumption <$> before) ++ [Edge.power_consumption r])
             = Edge.power_consumption <$> Edge.push_window before x).
  { intros x Hx. rewrite push_window_fmap, Hx. reflexivity. }
  simpl. rewrite fmap_insert. f_equal.
  - f_equal. apply (Hwin r'). reflexivity.
  - rewrite (Hwin r eq_refl). clear Hwin. subst r'. simpl.
    unfold Edge.score, Reference.N. rewrite length_fmap.
    repeat case_decide; try lia; try reflexivity.
    symmetry. apply z_score_agree.
Qed.

Lemma feed_refines (inputs : list (pykey * Edge.reading))
    (buffer : gmap pykey (list Edge.reading)) :
  (fun p => Edge.anomaly (snd p)) <$> snd (Runs.feed buffer inputs)
  = Reference.detector_run (Runs.powers buffer)
      ((fun p => (fst p, Edge.power_consumption (snd p))) <$> inputs).
Proof.
  revert buffer.
  induction inputs as [|[k r] rest IH]; intros buffer; [reflexivity|].
  cbn -[Reference.detector_step Edge.detect_anomalies].
  rewrite (detect_anomalies_step buffer k r).
  destruct (Edge.detect_anomalies buffer k r) as [buffer' r'].
  specialize (IH buffer').
  destruct (Runs.feed buffer' rest) as [final returned].
  cbn -[Reference.detector_step Edge.detect_anomalies] in *.
  rewrite IH. reflexivity.
Qed.

(** C2.  From a fresh process on, whatever readings of whatever cities the
    detector is fed, the anomaly flag of each reading it returns is the one
    the specification's algorithm computes: false during a cold start, false
    when the deviation of the window after the append is zero, and otherwise
    whether [|current_value - mu| / sigma] exceeds 3. *)
Theorem detect_anomalies_refines_reference (inputs : list (pykey * Edge.reading)) :
  (fun p => Edge.anomaly (snd p)) <$> snd (Runs.feed ∅ inputs)
  = Reference.detector_run ∅
      ((fun p => (fst p, Edge.power_consumption (snd p))) <$> inputs).
Proof.
  rewrite feed_refines. unfold Runs.powers. rewrite fmap_empty. reflexivity.
Qed.

End Detector.

(** Nine readings of a tenth and one of seven tenths, with the sample
    runtime: the tenth reading is flagged, by the code and by the
    specification's algorithm alike. *)
Example spike_is_flagged :
  let tenth := PrimFloat.div 1 10 in
  let inputs := (fun p => (KStr "Mumbai", Sample.a_reading p))
                  <$> (replicate 9 tenth ++ [PrimFloat.div 7 10]) in
  (fun p => Edge.anomaly (snd p)) <$> snd (Runs.feed (RT := Sample.runtime) ∅ inputs)
  = replicate 9 false ++ [true]
  /\ Reference.detector_run (RT := Sample.runtime) ∅
       ((fun p => (fst p, Edge.power_consumption (snd p))) <$> inputs)
     = replicate 9 false ++ [true].
Proof. vm_compute. auto. Qed.

(** ** The window *)

Lemma of_city_app {A} (k : pykey) (l1 l2 : list (pykey * A)) :
  Runs.of_city k (l1 ++ l2) = Runs.of_city k l1 ++ Runs.of_city k l2.
Proof. unfold Runs.of_city. rewrite filter_app, fmap_app. reflexivity. Qed.

Lemma of_city_one {A} (k k' : pykey) (x : A) :
  Runs.of_city k [(k', x)] = if decide (k' = k) then [x] else [].
Proof.
  unfold Runs.of_city. rewrite filter_cons, filter_nil. simpl.
  case_decide; reflexivity.
Qed.

Lemma last_n_length {A} (n : nat) (l : list A) : length (Runs.last_n n l) <= n.
Proof. unfold Runs.last_n. rewrite length_drop. lia. Qed.

Section Window.
Context `{RT : PyRuntime}.

Lemma detect_anomalies_windows_of (buffer : gmap pykey (list Edge.reading))
    (history : list (pykey * Edge.reading)) (k : pykey) (r : Edge.reading) :
  Claims.windows_of buffer history ->
  Claims.windows_of (fst (Edge.detect_anomalies buffer k r))
             (history ++ [(k, snd (Edge.detect_anomalies buffer k r))]).
Proof.
  intros Hinv k'. unfold Edge.detect_anomalies. simpl.
  rewrite of_city_app, of_city_one.
  destruct (decide (k = k')) as [->|Hne].
  - rewrite lookup_insert_eq. simpl. rewrite (Hinv k'). apply push_window_last_n.
  - rewrite lookup_insert_ne by exact Hne. rewrite app_nil_r. apply Hinv.
Qed.

Lemma feed_windows_of (inputs : list (pykey * Edge.reading))
    (buffer : gmap pykey (list Edge.reading)) (history : list (pykey * Edge.reading)) :
  Claims.windows_of buffer history ->
  Claims.windows_of (fst (Runs.feed buffer inputs)) (history ++ snd (Runs.feed buffer inputs)).
Proof.
  revert buffer history.
  induction inputs as [|[k r] rest IH]; intros buffer history Hinv.
  - simpl. rewrite app_nil_r. exact Hinv.
  - cbn -[Edge.detect_anomalies].
    pose proof (detect_anomalies_windows_of buffer history k r Hinv) as Hstep.
    destruct (Edge.detect_anomalies buffer k r) as [buffer' r'].
    specialize (IH buffer' _ Hstep).
    destruct (Runs.feed buffer' rest) as [final returned].
    cbn -[Edge.detect_anomalies] in *.
    rewrite <- app_assoc in IH. exact IH.
Qed.

(** C3.  From a fresh process on, after any calls of the detector the window
    of every city holds at most [WINDOW_SIZE] = 10 readings, namely the last
    ten returned for that city in the order they came; and one more call
    for the city appends its reading after evicting the oldest one exactly
    when the window was full. *)
Theorem window_bounded_fifo (inputs : list (pykey * Edge.reading)) (k : pykey) :
  let buffer := fst (Runs.feed ∅ inputs) in
  let window := default [] (buffer !! k) in
  Edge.WINDOW_SIZE = 10
  /\ length window <= Edge.WINDOW_SIZE
  /\ window = Runs.last_n Edge.WINDOW_SIZE (Runs.of_city k (snd (Runs.feed ∅ inputs)))
  /\ forall r : Edge.reading,
       default [] (fst (Edge.detect_anomalies buffer k r) !! k)
       = (if decide (length window = Edge.WINDOW_SIZE) then drop 1 window else window)
         ++ [snd (Edge.detect_anomalies buffer k r)].
Proof.
  intros buffer window.
  assert (Hinv : Claims.windows_of buffer ([] ++ snd (Runs.feed ∅ inputs))).
  { apply feed_windows_of. intros k'. rewrite lookup_empty. reflexivity. }
  simpl in Hinv.
  assert (Hlen : length window <= Edge.WINDOW_SIZE).
  { subst window. rewrite (Hinv k). apply last_n_length. }
  split; [reflexivity|]. split; [exact Hlen|]. split; [apply Hinv|].
  intros r. unfold Edge.detect_anomalies. simpl.
  rewrite lookup_insert_eq. simpl.
  apply push_window_cases, Hlen.
Qed.

End Window.

(** Eleven readings for one city: the first is the one that has left. *)
Example window_evicts_oldest :
  let inputs := (fun p => (KStr "Mumbai", Sample.a_reading p))
                  <$> [1; 2; 3; 4; 5; 6; 7; 8; 9; 10; 11]%float in
  Edge.power_consumption
    <$> default [] (fst (Runs.feed (RT := Sample.runtime) ∅ inputs) !! KStr "Mumbai")
  = [2; 3; 4; 5; 6; 7; 8; 9; 10; 11]%float.
Proof. vm_compute. reflexivity. Qed.

(** ** The retry loop *)

Section Forwarder.
Context `{RT : PyRuntime} {S : Type}.
Variable session_post : S -> json -> Edge.post_outcome * S.

Lemma lt_fails_not_delivered (o : Edge.post_outcome) body :
  Claims.fails o -> o <> Edge.PostResponse 200 body.
Proof. intros Hf ->. destruct body as [[]|]; simpl in Hf; try tauto; congruence. Qed.

(** The loop from attempt [a] on, with [n] attempts left of the three. *)
Lemma forward_from (n a : nat) (payload : json) (w : Edge.world S) :
  a + n = Edge.max_retries -> 1 <= n ->
  let result := Edge.forward session_post (seq a n) payload w in
  let os := Claims.outcomes session_post (Edge.store w) payload n in
  exists m,
    1 <= m <= n
    /\ Edge.trace (snd result) = Edge.trace w ++ Claims.posts_from payload a m
    /\ Edge.readings_buffer (snd result) = Edge.readings_buffer w
    /\ (Forall Claims.fails os ->
        m = n /\ exists r, fst result = Ok (Some r)
                           /\ resp_code r = 500%Z /\ resp_status r = "error")
    /\ (forall k body, Forall Claims.fails (take k os) ->
                       os !! k = Some (Edge.PostResponse 200 body) ->
                       m = Datatypes.S k /\ fst result = Ok (Some Edge.delivered)).
Proof.
  revert a w. induction n as [|n IH]; intros a w Hsum Hn; [lia|].
  cbn [seq Edge.forward Claims.outcomes].
  unfold Edge.session_post_call.
  destruct (session_post (Edge.store w) payload) as [o s'] eqn:Hpost.
  set (w1 := {| Edge.readings_buffer := Edge.readings_buffer w; Edge.store := s';
                Edge.trace := Edge.trace w ++ [Edge.EvPost payload] |}).
  (* what the two [retry_or] branches come to *)
  assert (Hretry : forall final : http_response,
            resp_code final = 500%Z -> resp_status final = "error" ->
            (forall body, o <> Edge.PostResponse 200 body) ->
            let result :=
              if decide (a < Edge.max_retries - 1)
              then Edge.bind (Edge.emit (Edge.EvSleep (Edge.retry_delay * 2 ^ Z.of_nat a)))
                     (fun _ => Edge.forward session_post (seq (Datatypes.S a) n) payload) w1
              else (Ok (Some final), w1) in
            let os := o :: Claims.outcomes session_post s' payload n in
            exists m,
              1 <= m <= Datatypes.S n
              /\ Edge.trace (snd result) = Edge.trace w ++ Claims.posts_from payload a m
              /\ Edge.readings_buffer (snd result) = Edge.readings_buffer w
              /\ (Forall Claims.fails os ->
                  m = Datatypes.S n /\ exists r, fst result = Ok (Some r)
                                     /\ resp_code r = 500%Z /\ resp_status r = "error")
              /\ (forall k body, Forall Claims.fails (take k os) ->
                                 os !! k = Some (Edge.PostResponse 200 body) ->
                                 m = Datatypes.S k /\ fst result = Ok (Some Edge.delivered))).
  { intros final Hcode Hstatus Hfail. unfold Edge.max_retries in *.
    case_decide as Hlast.
    - destruct n as [|n']; [lia|].
      unfold Edge.bind, Edge.emit. cbn -[Edge.forward seq Claims.outcomes Z.pow Z.mul].
      set (w2 := {| Edge.readings_buffer := _; Edge.store := _; Edge.trace := _ |}).
      destruct (IH (Datatypes.S a) w2 ltac:(lia) ltac:(lia))
        as (m & Hm & Htrace & Hbuf & Hall & Hfirst).
      exists (Datatypes.S m). split; [lia|].
      split.
      { rewrite Htrace. subst w2 w1. simpl Edge.trace.
        destruct m as [|m']; [lia|]. rewrite <- !app_assoc. reflexivity. }
      split; [rewrite Hbuf; reflexivity|].
      split.
      + intros Hos. apply Forall_cons in Hos as [_ Hos].
        destruct (Hall Hos) as (-> & r & Hr). split; [reflexivity|]. exists r. exact Hr.
      + intros [|k] body Htake Hk.
        * simpl in Hk. injection Hk as ->. exfalso. eapply Hfail. reflexivity.
        * simpl in Htake, Hk. apply Forall_cons in Htake as [_ Htake].
          destruct (Hfirst k body Htake Hk) as (-> & Hres). split; [reflexivity|exact Hres].
    - assert (n = 0) as -> by lia.
      exists 1. simpl. split; [lia|]. split; [reflexivity|]. split; [reflexivity|].
      split.
      + intros _. split; [reflexivity|]. exists final. auto.
      + intros [|k] body Htake Hk; simpl in Hk; [|discriminate].
        injection Hk as ->. exfalso. eapply Hfail. reflexivity. }
  (* the branches that stop at this post *)
  assert (Hstop : forall res : result (option http_response),
            (forall body, o = Edge.PostResponse 200 body -> res = Ok (Some Edge.delivered)) ->
            ~ Claims.fails o \/ (exists body, o = Edge.PostResponse 200 body) ->
            let result := (res, w1) in
            let os := o :: Claims.outcomes session_post s' payload n in
            exists m,
              1 <= m <= Datatypes.S n
              /\ Edge.trace (snd result) = Edge.trace w ++ Claims.posts_from payload a m
              /\ Edge.readings_buffer (snd result) = Edge.readings_buffer w
              /\ (Forall Claims.fails os ->
                  m = Datatypes.S n /\ exists r, fst result = Ok (Some r)
                                     /\ resp_code r = 500%Z /\ resp_status r = "error")
              /\ (forall k body, Forall Claims.fails (take k os) ->
                                 os !! k = Some (Edge.PostResponse 200 body) ->
                                 m = Datatypes.S k /\ fst result = Ok (Some Edge.delivered))).
  { intros res Hres Hnot. exists 1. simpl.
    assert (Hnf : ~ Claims.fails o).
    { destruct Hnot as [Hnot|[body ->]]; [exact Hnot|].
      intros Hf. eapply lt_fails_not_delivered; [exact Hf|reflexivity]. }
    split; [lia|]. split; [reflexivity|]. split; [reflexivity|].
    split.
    - intros Hos. apply Forall_cons in Hos as [Hf _]. contradiction.
    - intros [|k] body Htake Hk.
      + simpl in Hk. injection Hk as ->. split; [reflexivity|]. eauto.
      + simpl in Htake. apply Forall_cons in Htake as [Hf _]. contradiction. }
  destruct o as [status_code body|e].
  - destruct (status_code =? 200)%Z eqn:Hcode.
    + apply Z.eqb_eq in Hcode as ->.
      apply (Hstop (Ok (Some Edge.delivered))); eauto.
    + apply Z.eqb_neq in Hcode.
      destruct body as [j|e]; simpl.
      * destruct j; simpl;
          try (apply (Hstop (Raise (AttributeError "get")));
               [intros ? [=]; congruence | left; simpl; tauto]).
        apply Hretry; auto; congruence.
      * destruct (is_request_exception e) eqn:He.
        -- apply Hretry; auto; congruence.
        -- apply (Hstop (Raise e)); [intros ? [=]; congruence|].
           left. simpl. intros [_ Hreq]. congruence.
  - destruct (is_request_exception e) eqn:He.
    + apply Hretry; auto; congruence.
    + apply (Hstop (Raise e)); [intros ? [=] | left; simpl; congruence].
Qed.

(** One failed attempt: the loop sleeps and goes on, or, after the last
    attempt, reports what that attempt met. *)
Lemma forward_fails (a : nat) (rest : list nat) (payload : json) (w : Edge.world S)
    (o : Edge.post_outcome) (s' : S) :
  session_post (Edge.store w) payload = (o, s') -> Claims.fails o ->
  Edge.forward session_post (a :: rest) payload w
  = if decide (a < Edge.max_retries - 1)
    then Edge.forward session_post rest payload
           {| Edge.readings_buffer := Edge.readings_buffer w; Edge.store := s';
              Edge.trace := (Edge.trace w ++ [Edge.EvPost payload])
                            ++ [Edge.EvSleep (Edge.retry_delay * 2 ^ Z.of_nat a)] |}
    else (Ok (Some (Claims.report o)),
          {| Edge.readings_buffer := Edge.readings_buffer w; Edge.store := s';
             Edge.trace := Edge.trace w ++ [Edge.EvPost payload] |}).
Proof.
  intros Hpost Hf. cbn [Edge.forward]. unfold Edge.session_post_call.
  rewrite Hpost. unfold Edge.bind, Edge.emit.
  cbn [Edge.readings_buffer Edge.store Edge.trace].
  destruct o as [status_code [j|e]|e]; cbn [Claims.fails] in Hf.
  - destruct j; try contradiction.
    apply Z.eqb_neq in Hf. rewrite Hf. reflexivity.
  - destruct Hf as [Hcode Hreq]. apply Z.eqb_neq in Hcode.
    rewrite Hcode. cbn [rbind]. rewrite Hreq. reflexivity.
  - rewrite Hf. reflexivity.
Qed.

(** When every attempt fails, the answer is the report of the last one. *)
Lemma forward_reports (n a : nat) (payload : json) (w : Edge.world S) :
  a + n = Edge.max_retries -> 1 <= n ->
  Forall Claims.fails (Claims.outcomes session_post (Edge.store w) payload n) ->
  exists o,
    last (Claims.outcomes session_post (Edge.store w) payload n) = Some o
    /\ fst (Edge.forward session_post (seq a n) payload w)
       = Ok (Some (Claims.report o)).
Proof.
  revert a w. induction n as [|n IH]; intros a w Hsum Hn Hos; [lia|].
  cbn [seq Claims.outcomes] in *.
  destruct (session_post (Edge.store w) payload) as [o s'] eqn:Hpost.
  apply Forall_cons in Hos as [Hf Hos].
  rewrite (forward_fails a (seq (Datatypes.S a) n) payload w o s' Hpost Hf).
  unfold Edge.max_retries in *. case_decide as Hlast.
  - destruct n as [|n']; [lia|].
    match goal with
    | |- context [Edge.forward _ _ payload ?w2] =>
        destruct (IH (Datatypes.S a) w2 ltac:(lia) ltac:(lia) Hos) as (o' & Ho' & Hres)
    end.
    cbn [Edge.store] in Ho'.
    exists o'. split; [|exact Hres].
    rewrite last_cons, Ho'. reflexivity.
  - assert (n = 0) as -> by lia.
    exists o. split; reflexivity.
Qed.

Lemma report_delivery_failure (o : Edge.post_outcome) :
  Claims.delivery_failure (Claims.report o).
Proof.
  unfold Claims.delivery_failure.
  destruct o as [status_code [[]|]|]; cbn [Claims.report]; eauto.
Qed.

(** An answer other than 200 whose JSON body is no object ends the loop:
    [response.json().get] raises an [AttributeError], which is no
    [RequestException]. *)
Lemma forward_no_object (a : nat) (rest : list nat) (payload : json)
    (w : Edge.world S) (o : Edge.post_outcome) (s' : S) :
  session_post (Edge.store w) payload = (o, s') -> Claims.answers_no_object o ->
  Edge.forward session_post (a :: rest) payload w
  = (Raise (AttributeError "get"),
     {| Edge.readings_buffer := Edge.readings_buffer w; Edge.store := s';
        Edge.trace := Edge.trace w ++ [Edge.EvPost payload] |}).
Proof.
  intros Hpost Hno. cbn [Edge.forward]. unfold Edge.session_post_call.
  rewrite Hpost.
  destruct o as [status_code [j|e]|e]; cbn [Claims.answers_no_object] in Hno;
    try contradiction.
  destruct j; try contradiction;
    apply Z.eqb_neq in Hno; rewrite Hno; reflexivity.
Qed.

(** The same after [k] failed attempts: the loop ends with the post of
    attempt [k]. *)
Lemma forward_stops_at (k n a : nat) (payload : json) (w : Edge.world S)
    (o : Edge.post_outcome) :
  a + n = Edge.max_retries ->
  Forall Claims.fails (take k (Claims.outcomes session_post (Edge.store w) payload n)) ->
  Claims.outcomes session_post (Edge.store w) payload n !! k = Some o ->
  Claims.answers_no_object o ->
  let result := Edge.forward session_post (seq a n) payload w in
  fst result = Raise (AttributeError "get")
  /\ Edge.trace (snd result)
     = Edge.trace w ++ Claims.posts_from payload a (Datatypes.S k).
Proof.
  revert n a w. induction k as [|k IH]; intros n a w Hsum Hos Hk Hno;
    (destruct n as [|n]; [discriminate|]);
    cbn [seq Claims.outcomes] in *;
    destruct (session_post (Edge.store w) payload) as [o0 s'] eqn:Hpost.
  - cbn [lookup list_lookup] in Hk. injection Hk as ->.
    rewrite (forward_no_object a _ payload w o s' Hpost Hno).
    split; reflexivity.
  - cbn [take] in Hos. apply Forall_cons in Hos as [Hf Hos].
    cbn [lookup list_lookup] in Hk.
    assert (1 <= n).
    { destruct n; [discriminate|lia]. }
    rewrite (forward_fails a _ payload w o0 s' Hpost Hf).
    unfold Edge.max_retries in *. rewrite decide_True by lia.
    match goal with
    | |- context [Edge.forward _ _ payload ?w2] =>
        destruct (IH n (Datatypes.S a) w2 ltac:(lia) Hos Hk Hno) as [Hres Htrace]
    end.
    split; [exact Hres|].
    rewrite Htrace. cbn [Edge.trace Claims.posts_from].
    rewrite <- !app_assoc. reflexivity.
Qed.

End Forwarder.

Lemma count_posts_from (payload : json) (a m : nat) :
  Claims.count_posts (Claims.posts_from payload a m) = m.
Proof.
  unfold Claims.count_posts. revert a.
  induction m as [|m IH]; intros a; [reflexivity|].
  cbn [Claims.posts_from]. rewrite filter_cons_True by reflexivity.
  destruct m as [|m']; [reflexivity|].
  rewrite filter_cons_False by (simpl; congruence).
  cbn [length]. f_equal. apply (IH (Datatypes.S a)).
Qed.

Lemma added_app (before evs : list Edge.event) :
  Claims.added before (before ++ evs) = evs.
Proof. unfold Claims.added. apply drop_app_length. Qed.

Section Backoff.
Context `{RT : PyRuntime} {S : Type}.
Variable session_post : S -> json -> Edge.post_outcome * S.

(** C4.  The loop posts at least once and at most [max_retries] = 3 times;
    between attempt [k] and the next it sleeps [retry_delay * 2 ^ k] seconds,
    so 1 then 2.  When every attempt fails with a network error, or with an
    answer other than 200 whose body is a JSON object or cannot be read, it
    posts exactly three times and answers with the failed outcome, which
    carries what the last attempt met.  When the attempts before [k] fail so
    and attempt [k] succeeds it answers [delivered] after [k + 1] posts and
    posts no more.  But when attempt [k] is answered other than 200 with a
    JSON body that is no object, the loop ends there with an
    [AttributeError]: a store that always fails in this way is posted to
    once. *)
Theorem forward_bounded_backoff (payload : json) (w : Edge.world S) :
  let result := Edge.forward session_post (seq 0 Edge.max_retries) payload w in
  let os := Claims.outcomes session_post (Edge.store w) payload Edge.max_retries in
  Edge.max_retries = 3
  /\ exists m,
       1 <= m <= Edge.max_retries
       /\ Edge.trace (snd result) = Edge.trace w ++ Claims.posts_from payload 0 m
       /\ Claims.count_posts (Claims.added (Edge.trace w) (Edge.trace (snd result))) = m
       /\ Claims.sleeps (Claims.added (Edge.trace w) (Edge.trace (snd result)))
          = take (m - 1) [1; 2]%Z
       /\ (Forall Claims.fails os ->
           m = Edge.max_retries /\ Claims.failed (fst result)
           /\ exists o, last os = Some o /\ fst result = Ok (Some (Claims.report o)))
       /\ (forall k body,
             Forall Claims.fails (take k os) ->
             os !! k = Some (Edge.PostResponse 200 body) ->
             m = Datatypes.S k /\ fst result = Ok (Some Edge.delivered))
       /\ (forall k o,
             Forall Claims.fails (take k os) ->
             os !! k = Some o -> Claims.answers_no_object o ->
             m = Datatypes.S k /\ fst result = Raise (AttributeError "get")).
Proof.
  intros result os. split; [reflexivity|].
  destruct (forward_from session_post Edge.max_retries 0 payload w eq_refl)
    as (m & Hm & Htrace & _ & Hall & Hfirst); [unfold Edge.max_retries; lia|].
  exists m. fold result in Htrace, Hall, Hfirst. fold os in Hall, Hfirst.
  split; [exact Hm|]. split; [exact Htrace|].
  rewrite Htrace, added_app, count_posts_from.
  split; [reflexivity|]. split.
  { unfold Edge.max_retries in Hm.
    destruct m as [|[|[|[|m]]]]; try lia; reflexivity. }
  split; [|split; [exact Hfirst|]].
  - intros Hos. destruct (Hall Hos) as (-> & r & Hr). split; [reflexivity|].
    split; [exists r; exact Hr|].
    apply (forward_reports session_post Edge.max_retries 0 payload w eq_refl);
      [unfold Edge.max_retries; lia|exact Hos].
  - intros k o Htake Hk Hno.
    destruct (forward_stops_at session_post k Edge.max_retries 0 payload w o
                eq_refl Htake Hk Hno) as [Hres Hstop].
    fold result in Hres, Hstop. split; [|exact Hres].
    rewrite Htrace in Hstop. apply app_inv_head in Hstop.
    apply (f_equal Claims.count_posts) in Hstop.
    rewrite !count_posts_from in Hstop. exact Hstop.
Qed.




End Backoff.

(** A store that answers 500 with the JSON body [[]] to every post is
    posted to once. *)
Lemma forward_bounded_backoff_witness :
  let session : unit -> json -> Edge.post_outcome * unit :=
    fun s _ => (Edge.PostResponse 500 (Ok (JArr [])), s) in
  let result := Edge.forward (RT := Sample.runtime) session (seq 0 Edge.max_retries)
                  (JObj []) (Claims.fresh tt) in
  Claims.answers_no_object (fst (session tt (JObj [])))
  /\ Claims.count_posts (Claims.added [] (Edge.trace (snd result))) = 1
  /\ fst result = Raise (AttributeError "get").
Proof.
  intros session result.
  assert (Hno : Claims.answers_no_object (fst (session tt (JObj [])))).
  { cbn. lia. }
  split; [exact Hno|].
  destruct (forward_bounded_backoff (RT := Sample.runtime) session (JObj []) (Claims.fresh tt))
    as (_ & m & _ & _ & Hcount & _ & _ & _ & Hstop).
  destruct (Hstop 0 _ (Forall_nil_2 _) eq_refl Hno) as [-> Hres].
  split; [exact Hcount|exact Hres].
Defined.

(** A store that answers 500 with a JSON object to every post is posted to
    three times, with sleeps of 1 and 2 seconds in between. *)
Example always_failing_store :
  let session := Claims.answering 500 "database is locked" in
  let result := Edge.forward (RT := Sample.runtime) session (seq 0 Edge.max_retries)
                  (JObj []) (Claims.fresh tt) in
  Edge.trace (snd result)
  = [Edge.EvPost (JObj []); Edge.EvSleep 1; Edge.EvPost (JObj []);
     Edge.EvSleep 2; Edge.EvPost (JObj [])]
  /\ fst result
     = Ok (Some (Edge.failed_after (RT := Sample.runtime) (JStr "database is locked"))).
Proof. vm_compute. auto. Qed.

(** A store that answers 500 with the JSON body [[]] to every post: it is
    posted to once, and the handler answers with the text of the
    [AttributeError]. *)
Example list_body_ends_the_loop :
  let session : unit -> json -> Edge.post_outcome * unit :=
    fun s _ => (Edge.PostResponse 500 (Ok (JArr [])), s) in
  let result := Edge.receive_data (RT := Sample.runtime) session
                  (Sample.mumbai 230 10 2300) (Claims.fresh tt) in
  fst result = Some {| resp_code := 500; resp_status := "error";
                       resp_message := exn_text (PyRuntime := Sample.runtime)
                                         (AttributeError "get") |}
  /\ Claims.count_posts (Edge.trace (snd result)) = 1
  /\ Claims.sleeps (Edge.trace (snd result)) = [].
Proof. vm_compute. auto. Qed.

(** Two failures, then a success: delivered by the third post. *)
Example delivered_on_last_attempt :
  let result := Edge.forward (RT := Sample.runtime) (Claims.failing_first 2)
                  (seq 0 Edge.max_retries) (JObj []) (Claims.fresh 0) in
  fst result = Ok (Some Edge.delivered)
  /\ Claims.count_posts (Edge.trace (snd result)) = 3
  /\ Edge.store (snd result) = 3.
Proof. vm_compute. auto. Qed.

(** A success at once: one post and no sleep. *)
Example delivered_at_once :
  let result := Edge.forward (RT := Sample.runtime) (Claims.failing_first 0)
                  (seq 0 Edge.max_retries) (JObj []) (Claims.fresh 0) in
  fst result = Ok (Some Edge.delivered)
  /\ Edge.trace (snd result) = [Edge.EvPost (JObj [])].
Proof. vm_compute. auto. Qed.



(** ** The endpoint *)

Section Endpoint.
Context `{RT : PyRuntime} {S : Type}.
Variable session_post : S -> json -> Edge.post_outcome * S.










End Endpoint.


(** What happens to the reading with the empty city. *)
Example empty_city_is_forwarded :
  let r := Sample.request (JStr "") 230 10 2300 Sample.enrichment in
  let result := Edge.receive_data (RT := Sample.runtime) Claims.accepting r (Claims.fresh tt) in
  fst result = Some Edge.delivered
  /\ Claims.count_posts (Edge.trace (snd result)) = 1
  /\ length (default [] (Edge.readings_buffer (snd result) !! KStr "")) = 1.
Proof. vm_compute. auto. Qed.

(** Nor need the city be a string: [null] is validated as the text [None],
    scored in the window that [None] keys, and forwarded. *)
Example null_city_is_forwarded :
  let r := Sample.request JNull 230 10 2300 Sample.enrichment in
  let result := Edge.receive_data (RT := Sample.runtime) Claims.accepting r (Claims.fresh tt) in
  fst result = Some Edge.delivered
  /\ Claims.count_posts (Edge.trace (snd result)) = 1
  /\ Edge.city <$> default [] (Edge.readings_buffer (snd result) !! KNone) = ["None"].
Proof. vm_compute. auto. Qed.



Section Pipeline.
Context `{RT : PyRuntime} {S : Type}.
Variable session_post : S -> json -> Edge.post_outcome * S.

Lemma required_fields_enriched (r : json) (processed : Edge.reading) :
  Claims.enriched r ->
  exists t h z pk pc es,
    Edge.required_fields r processed
    = Ok (JObj [("city", JStr (Edge.city processed));
                ("timestamp", JStr (Edge.timestamp processed));
                ("voltage", JFloat (Edge.voltage processed));
                ("current", JFloat (Edge.current processed));
                ("power_consumption", JFloat (Edge.power_consumption processed));
                ("status", JStr (Edge.status processed));
                ("flagged", JBool (Edge.flagged processed));
                ("anomaly", JBool (Edge.anomaly processed));
                ("temperature", JFloat t);
                ("humidity", JFloat h);
                ("zone_distribution", z);
                ("is_peak_hour", JBool pk);
                ("per_capita_consumption", JFloat pc);
                ("efficiency_score", JFloat es)]).
Proof.
  intros ((t & Ht) & (h & Hh) & (z & Hz) & (pk & Hpk) & (pc & Hpc) & (es & Hes)).
  exists t, h, z, (truthy pk), pc, es.
  unfold Edge.required_fields. rewrite Ht, Hh, Hz, Hpk, Hpc, Hes. reflexivity.
Qed.

(** A request that gets through lines 414-439. *)
Lemma prepare_ok (r : json) (w : Edge.world S) (j : json) (k : pykey)
    (c : Edge.reading) (payload : json) :
  subscript r "city" = Ok j -> dict_key j = Key k ->
  Edge.clean_data r = Ok c ->
  Edge.required_fields r (snd (Edge.detect_anomalies (Edge.readings_buffer w) k c))
  = Ok payload ->
  Edge.prepare r w
  = (Ok payload,
     {| Edge.readings_buffer := fst (Edge.detect_anomalies (Edge.readings_buffer w) k c);
        Edge.store := Edge.store w;
        Edge.trace := Edge.trace w ++ [Edge.EvDetect (Key k) c] |}).
Proof.
  intros Hj Hk Hc Hp.
  unfold Edge.prepare, Edge.bind, Edge.lift, Edge.call_detect_anomalies, Edge.emit.
  rewrite Hj, Hc, Hk. cbn -[Edge.detect_anomalies].
  destruct (Edge.detect_anomalies (Edge.readings_buffer w) k c) as [buffer' r'].
  simpl in *. rewrite Hp. reflexivity.
Qed.

Lemma receive_data_world (r : json) (w : Edge.world S) :
  snd (Edge.receive_data session_post r w)
  = snd (Edge.bind (Edge.prepare r)
           (Edge.forward session_post (seq 0 Edge.max_retries)) w).
Proof.
  unfold Edge.receive_data.
  destruct (Edge.bind _ _ w) as [[response|e] w']; reflexivity.
Qed.

End Pipeline.

(** ** Enrichment fields *)

Section Enrichment.
Context `{RT : PyRuntime} {S : Type}.
Variable session_post : S -> json -> Edge.post_outcome * S.

Lemma required_fields_inv (r : json) (processed : Edge.reading) (payload : json) :
  Edge.required_fields r processed = Ok payload ->
  Claims.enriched r
  /\ exists t h z pk pc es,
       payload
       = JObj [("city", JStr (Edge.city processed));
               ("timestamp", JStr (Edge.timestamp processed));
               ("voltage", JFloat (Edge.voltage processed));
               ("current", JFloat (Edge.current processed));
               ("power_consumption", JFloat (Edge.power_consumption processed));
               ("status", JStr (Edge.status processed));
               ("flagged", JBool (Edge.flagged processed));
               ("anomaly", JBool (Edge.anomaly processed));
               ("temperature", JFloat t);
               ("humidity", JFloat h);
               ("zone_distribution", z);
               ("is_peak_hour", JBool pk);
               ("per_capita_consumption", JFloat pc);
               ("efficiency_score", JFloat es)].
Proof.
  unfold Edge.required_fields. intros H.
  apply rbind_ok in H as (t & Ht & H).
  apply rbind_ok in H as (h & Hh & H).
  apply rbind_ok in H as (z & Hz & H).
  apply rbind_ok in H as (pk & Hpk & H).
  apply rbind_ok in H as (pc & Hpc & H).
  apply rbind_ok in H as (es & Hes & H).
  injection H as <-.
  split.
  - unfold Claims.enriched, Claims.numeric. repeat split; eauto.
  - exists t, h, z, (truthy pk), pc, es. reflexivity.
Qed.

(** Lines 414-439 never post and never touch the store; a payload they
    hand on was built by [required_fields]. *)
Lemma prepare_cases (r : json) (w : Edge.world S) :
  Edge.store (snd (Edge.prepare r w)) = Edge.store w
  /\ (exists evs, Edge.trace (snd (Edge.prepare r w)) = Edge.trace w ++ evs
                  /\ Claims.count_posts evs = 0)
  /\ (forall payload, fst (Edge.prepare r w) = Ok payload ->
        exists processed, Edge.required_fields r processed = Ok payload).
Proof.
  unfold Edge.prepare, Edge.bind, Edge.lift, Edge.call_detect_anomalies, Edge.emit.
  destruct (subscript r "city") as [j|e]; simpl.
  2: { split; [reflexivity|]. split; [exists []; rewrite app_nil_r; auto|discriminate]. }
  destruct (Edge.clean_data r) as [c|e]; simpl.
  2: { split; [reflexivity|]. split; [exists []; rewrite app_nil_r; auto|discriminate]. }
  destruct (dict_key j) as [|k]; cbn -[Edge.detect_anomalies].
  - split; [reflexivity|]. split; [eexists; split; [reflexivity|reflexivity]|discriminate].
  - split; [reflexivity|]. split; [eexists; split; reflexivity|]. eauto.
Qed.

(** A request without one of the enrichment fields is never posted: the
    handler answers with the failed outcome. *)
Lemma missing_enrichment_never_posted (r : json) (w : Edge.world S) :
  ~ Claims.enriched r ->
  Claims.count_posts
    (Claims.added (Edge.trace w) (Edge.trace (snd (Edge.receive_data session_post r w)))) = 0
  /\ Claims.failed (Ok (fst (Edge.receive_data session_post r w))).
Proof.
  intros Hne.
  destruct (prepare_cases r w) as (_ & (evs & Htrace & Hcount) & Hpayload).
  unfold Edge.receive_data, Edge.bind.
  destruct (Edge.prepare r w) as [[payload|e] w1]; simpl in *.
  - destruct (Hpayload payload eq_refl) as (processed & Hp).
    exfalso. apply Hne. exact (proj1 (required_fields_inv r processed payload Hp)).
  - rewrite Htrace, added_app. split; [exact Hcount|].
    eexists. split; [reflexivity|]. split; reflexivity.
Qed.

(** Lines 414-421 for a reading that passes validation, from a city that
    can key a window: the detector has run when the payload is built. *)
Lemma prepare_scored (r : json) (w : Edge.world S) (j : json) (k : pykey)
    (c : Edge.reading) :
  subscript r "city" = Ok j -> dict_key j = Key k ->
  Edge.clean_data r = Ok c ->
  Edge.prepare r w
  = (Edge.required_fields r
       (snd (Edge.detect_anomalies (Edge.readings_buffer w) k c)),
     {| Edge.readings_buffer := fst (Edge.detect_anomalies (Edge.readings_buffer w) k c);
        Edge.store := Edge.store w;
        Edge.trace := Edge.trace w ++ [Edge.EvDetect (Key k) c] |}).
Proof.
  intros Hj Hk Hc.
  unfold Edge.prepare, Edge.bind, Edge.lift, Edge.call_detect_anomalies, Edge.emit.
  rewrite Hj, Hc, Hk. cbn -[Edge.detect_anomalies].
  destruct (Edge.detect_anomalies (Edge.readings_buffer w) k c) as [buffer' r'].
  reflexivity.
Qed.

(** C6.  A reading that passes validation with its voltage or its current
    out of bounds, from a city that can key a window, is [invalid] and
    flagged, and it is scored: the city's window takes it as its newest
    entry (the oldest leaves when the window held ten), no other window
    changes, and its verdict is [True] exactly when the window is full, the
    standard deviation of the window's powers is positive and the
    reading's power lies more than three of them from their mean.  With the
    enrichment fields there, it is then handed to [session.post] with
    [status] = [invalid], [flagged] = [True] and the verdict.  Without one
    of them it is dropped: the handler answers with the failed outcome and
    nothing is posted. *)
Theorem out_of_range_scored_then_forwarded (r : json) (w : Edge.world S) (j : json)
    (k : pykey) (c : Edge.reading) :
  Edge.clean_data r = Ok c ->
  subscript r "city" = Ok j -> dict_key j = Key k ->
  Claims.out_of_range c ->
  let result := Edge.receive_data session_post r w in
  let before := default [] (Edge.readings_buffer w !! k) in
  let window := default [] (Edge.readings_buffer (snd result) !! k) in
  let powers := Edge.power_consumption <$> window in
  exists verdict : bool,
    Edge.status c = "invalid" /\ Edge.flagged c = true
    /\ window = (if decide (Edge.WINDOW_SIZE < length before + 1)
                 then drop 1 (before ++ [Edge.set_anomaly verdict c])
                 else before ++ [Edge.set_anomaly verdict c])
    /\ (forall k', k' <> k ->
          Edge.readings_buffer (snd result) !! k' = Edge.readings_buffer w !! k')
    /\ (verdict = true <->
        Edge.WINDOW_SIZE <= length window
        /\ PrimFloat.ltb 0 (np_std powers) = true
        /\ PrimFloat.ltb 3
             (PrimFloat.abs
                (PrimFloat.div
                   (PrimFloat.sub (Edge.power_consumption c) (np_mean powers))
                   (np_std powers))) = true)
    /\ (Claims.enriched r ->
        exists payload rest,
          Claims.added (Edge.trace w) (Edge.trace (snd result))
          = Edge.EvDetect (Key k) c :: Edge.EvPost payload :: rest
          /\ subscript payload "status" = Ok (JStr "invalid")
          /\ subscript payload "flagged" = Ok (JBool true)
          /\ subscript payload "anomaly" = Ok (JBool verdict)
          /\ subscript payload "voltage" = Ok (JFloat (Edge.voltage c))
          /\ subscript payload "current" = Ok (JFloat (Edge.current c))
          /\ subscript payload "power_consumption"
             = Ok (JFloat (Edge.power_consumption c)))
    /\ (~ Claims.enriched r ->
        Claims.failed (Ok (fst result))
        /\ Claims.count_posts
             (Claims.added (Edge.trace w) (Edge.trace (snd result))) = 0).
Proof.
  intros Hc Hj Hk Hout result before window powers.
  assert (Hflagged : Edge.flagged c = true).
  { destruct (Edge.flagged c) eqn:Hf; [reflexivity|].
    exfalso. apply Hout. apply (clean_data_flagged r c Hc). exact Hf. }
  assert (Hstatus : Edge.status c = "invalid").
  { destruct (clean_data_fields r c Hc) as (_ & _ & _ & _ & _ & _ & _ & Hs).
    rewrite Hs, Hflagged. reflexivity. }
  set (verdict := Edge.score (Edge.push_window before c) c).
  exists verdict.
  assert (Hscored : Edge.detect_anomalies (Edge.readings_buffer w) k c
                    = (<[k := Edge.push_window before (Edge.set_anomaly verdict c)]>
                         (Edge.readings_buffer w),
                       Edge.set_anomaly verdict c)) by reflexivity.
  assert (Hbuffer : Edge.readings_buffer (snd result)
                    = <[k := Edge.push_window before (Edge.set_anomaly verdict c)]>
                        (Edge.readings_buffer w)).
  { subst result. rewrite receive_data_world. unfold Edge.bind.
    rewrite (prepare_scored r w j k c Hj Hk Hc), Hscored. cbn [fst snd].
    destruct (Edge.required_fields r _) as [payload|e]; [|reflexivity].
    match goal with
    | |- context [Edge.forward session_post _ payload ?w1] =>
        destruct (forward_from session_post Edge.max_retries 0 payload w1 eq_refl)
          as (m & _ & _ & Hbuf & _); [unfold Edge.max_retries; lia|]
    end.
    rewrite Hbuf. reflexivity. }
  assert (Hwindow : window = Edge.push_window before (Edge.set_anomaly verdict c)).
  { subst window. rewrite Hbuffer, lookup_insert_eq. reflexivity. }
  assert (Hpowers : Edge.power_consumption <$> Edge.push_window before c = powers).
  { subst powers. rewrite Hwindow, !push_window_fmap. reflexivity. }
  assert (Hlength : length (Edge.push_window before c) = length window).
  { rewrite <- (length_fmap Edge.power_consumption (Edge.push_window before c)), Hpowers.
    subst powers. apply length_fmap. }
  split; [exact Hstatus|]. split; [exact Hflagged|].
  split.
  { rewrite Hwindow. unfold Edge.push_window. rewrite length_app. reflexivity. }
  split.
  { intros k' Hne. rewrite Hbuffer. apply lookup_insert_ne. congruence. }
  split.
  { subst verdict. unfold Edge.score. cbn zeta. rewrite Hpowers, Hlength.
    assert (H30 : PrimFloat.ltb 3 0 = false) by reflexivity.
    case_decide as Hfull.
    - destruct (PrimFloat.ltb 0 (np_std powers)).
      + tauto.
      + rewrite H30. split; [discriminate|]. intros (_ & Hstd & _). discriminate.
    - split; [discriminate|]. intros (Hfull' & _). contradiction. }
  split.
  - intros Hen.
    destruct (required_fields_enriched r (Edge.set_anomaly verdict c) Hen)
      as (t & h & z & pk & pc & es & Hpayload).
    subst result. rewrite receive_data_world. unfold Edge.bind.
    rewrite (prepare_ok r w j k c _ Hj Hk Hc Hpayload).
    match goal with
    | |- context [Edge.forward session_post _ ?p ?w1] =>
        destruct (forward_from session_post Edge.max_retries 0 p w1 eq_refl)
          as (m & Hm & Htrace & _); [unfold Edge.max_retries; lia|]
    end.
    rewrite Htrace. cbn [Edge.trace].
    rewrite <- app_assoc, added_app.
    destruct m as [|m]; [lia|].
    eexists. eexists. split; [reflexivity|].
    cbn [subscript assoc String.eqb Ascii.eqb Bool.eqb Edge.set_anomaly
         Edge.status Edge.flagged Edge.anomaly Edge.voltage Edge.current
         Edge.power_consumption].
    rewrite Hstatus, Hflagged. repeat split; reflexivity.
  - intros Hne.
    destruct (missing_enrichment_never_posted r w Hne) as [Hcount Hfailed].
    split; [exact Hfailed|exact Hcount].
Qed.

End Enrichment.

(** 250 volts and no enrichment field: flagged, taken into the window of
    Mumbai, and dropped. *)
Lemma out_of_range_scored_then_forwarded_witness :
  let r := Sample.request (JStr "Mumbai") 250 10 2300 [] in
  let c := {| Edge.voltage := 250; Edge.current := 10;
              Edge.power_consumption := 2300; Edge.city := "Mumbai";
              Edge.timestamp := "2024-01-15T10:30:00"; Edge.status := "invalid";
              Edge.flagged := true; Edge.anomaly := false |} in
  let result := Edge.receive_data (RT := Sample.runtime) Claims.accepting r (Claims.fresh tt) in
  Edge.clean_data (RT := Sample.runtime) r = Ok c
  /\ Claims.out_of_range c
  /\ ~ Claims.enriched (RT := Sample.runtime) r
  /\ default [] (Edge.readings_buffer (snd result) !! KStr "Mumbai") = [c]
  /\ Claims.failed (Ok (fst result))
  /\ Claims.count_posts (Edge.trace (snd result)) = 0.
Proof.
  intros r c result.
  assert (Hc : Edge.clean_data (RT := Sample.runtime) r = Ok c) by reflexivity.
  assert (Hout : Claims.out_of_range c).
  { intros [[_ Hhi] _]. vm_compute in Hhi. discriminate. }
  assert (Hne : ~ Claims.enriched (RT := Sample.runtime) r).
  { intros ((x & Hx) & _). vm_compute in Hx. discriminate. }
  split; [exact Hc|]. split; [exact Hout|]. split; [exact Hne|].
  destruct (out_of_range_scored_then_forwarded (RT := Sample.runtime) Claims.accepting
              r (Claims.fresh tt) (JStr "Mumbai") (KStr "Mumbai") c
              Hc eq_refl eq_refl Hout)
    as (verdict & _ & _ & Hwindow & _ & Hverdict & _ & Hdropped).
  destruct (Hdropped Hne) as [Hfailed Hcount].
  split; [|split; [exact Hfailed|exact Hcount]].
  unfold result. rewrite Hwindow. cbn [Claims.fresh Edge.readings_buffer].
  rewrite lookup_empty. cbn [default from_option app length].
  rewrite decide_False by (unfold Edge.WINDOW_SIZE; lia).
  destruct verdict; [|reflexivity].
  exfalso. destruct (proj1 Hverdict eq_refl) as (Hfull & _).
  rewrite Hwindow in Hfull. cbn [Claims.fresh Edge.readings_buffer] in Hfull.
  rewrite lookup_empty in Hfull. cbn [default from_option app length] in Hfull.
  rewrite decide_False in Hfull by (unfold Edge.WINDOW_SIZE; lia).
  cbn [length] in Hfull. unfold Edge.WINDOW_SIZE in Hfull. lia.
Defined.

(** The same reading with the enrichment fields is posted. *)
Example out_of_range_enriched_is_posted :
  let result := Edge.receive_data (RT := Sample.runtime) Claims.accepting
                  (Sample.mumbai 250 10 2300) (Claims.fresh tt) in
  fst result = Some Edge.delivered
  /\ exists payload,
       Edge.trace (snd result)
       = [Edge.EvDetect (Key (KStr "Mumbai"))
            {| Edge.voltage := 250; Edge.current := 10;
               Edge.power_consumption := 2300; Edge.city := "Mumbai";
               Edge.timestamp := "2024-01-15T10:30:00"; Edge.status := "invalid";
               Edge.flagged := true; Edge.anomaly := false |};
          Edge.EvPost payload]
       /\ subscript payload "status" = Ok (JStr "invalid")
       /\ subscript payload "flagged" = Ok (JBool true).
Proof. vm_compute. split; [reflexivity|]. eexists. repeat split. Qed.

(** C8 fails on the code.  The reading that [smart_meter.py] sends has the
    five required fields and no enrichment: the edge server takes it into
    the city's window, then raises [KeyError('temperature')], answers 500
    and posts nothing; the store, given the same body, stores it with the
    absent fields at zero. *)
Theorem smart_meter_reading_not_forwarded :
  let r := Sample.request (JStr "Mumbai") 230 10 2300 [] in
  let result := Edge.receive_data (RT := Sample.runtime) Claims.accepting r (Claims.fresh tt) in
  fst result = Some {| resp_code := 500; resp_status := "error";
                       resp_message := exn_text (PyRuntime := Sample.runtime)
                                         (KeyError "temperature") |}
  /\ Claims.count_posts (Edge.trace (snd result)) = 0
  /\ length (default [] (Edge.readings_buffer (snd result) !! KStr "Mumbai")) = 1
  /\ exists row,
       Central.store_data (RT := Sample.runtime) Claims.always_inserts [] r
       = (Central.stored, [row])
       /\ Central.temperature row = 0%float /\ Central.humidity row = 0%float
       /\ Central.zone_industrial row = JInt 0
       /\ Central.per_capita_consumption row = 0%float
       /\ Central.efficiency_score row = 0%float.
Proof.
  vm_compute. repeat split. eexists. repeat split.
Qed.

(** ** What the store keeps of a forwarded reading *)

Section Stored.
Context `{RT : PyRuntime}.
Variable execute_insert : Central.row -> result unit.

(** The row made of a payload the edge server built: [is_anomaly] is 0. *)
Lemma insert_params_of_payload (r : json) (processed : Edge.reading)
    (payload : json) (row : Central.row) :
  Edge.required_fields r processed = Ok payload ->
  Central.insert_params payload = Ok row ->
  Central.is_anomaly row = 0%Z.
Proof.
  intros Hp Hrow.
  destruct (required_fields_inv r processed payload Hp)
    as (_ & t & h & z & pk & pc & es & ->).
  unfold Central.insert_params in Hrow. cbn [dict_get assoc String.eqb Ascii.eqb
    Bool.eqb default rbind truthy] in Hrow.
  rbind_inv Hrow. injection Hrow as <-. reflexivity.
Qed.

(** The verdict, the status and the flag are not read: two payloads that
    differ in them only make the same row. *)
Lemma insert_params_ignores_verdict (r : json) (p p' : Edge.reading)
    (payload payload' : json) :
  Edge.city p = Edge.city p' -> Edge.timestamp p = Edge.timestamp p' ->
  Edge.voltage p = Edge.voltage p' -> Edge.current p = Edge.current p' ->
  Edge.power_consumption p = Edge.power_consumption p' ->
  Edge.required_fields r p = Ok payload ->
  Edge.required_fields r p' = Ok payload' ->
  Central.insert_params payload = Central.insert_params payload'.
Proof.
  intros Hc Ht Hv Hi Hpw Hp Hp'.
  destruct (required_fields_inv r p payload Hp)
    as (_ & t & h & z & pk & pc & es & ->).
  destruct (required_fields_inv r p' payload' Hp')
    as (_ & t' & h' & z' & pk' & pc' & es' & ->).
  unfold Edge.required_fields in Hp, Hp'.
  rbind_inv Hp. rbind_inv Hp'.
  repeat match goal with
  | H1 : ?m = Ok ?x, H2 : ?m = Ok ?y |- _ =>
      rewrite H1 in H2; injection H2 as <-
  end.
  injection Hp as <- <- <- <- <- <-. injection Hp' as <- <- <- <- <- <-.
  unfold Central.insert_params.
  cbn [dict_get subscript assoc String.eqb Ascii.eqb Bool.eqb default rbind truthy py_float].
  rewrite Hc, Ht, Hv, Hi, Hpw. reflexivity.
Qed.

Lemma central_session_stored (table : list Central.row) (payload : json) :
  (exists row,
     Central.insert_params payload = Ok row
     /\ Central.central_session execute_insert table payload
        = (Edge.PostResponse 200
             (Ok (JObj [("status", JStr "success");
                        ("message", JStr "Data stored successfully")])),
           table ++ [row]))
  \/ (Claims.fails (fst (Central.central_session execute_insert table payload))
      /\ snd (Central.central_session execute_insert table payload) = table).
Proof.
  unfold Central.central_session, Central.store_data.
  destruct (json_compliant payload); [|right; split; reflexivity].
  destruct (Central.insert_params payload) as [row|e]; simpl.
  - destruct (execute_insert row) as [[]|e]; simpl.
    + left. exists row. split; reflexivity.
    + right. split; [discriminate|reflexivity].
  - right. split; [discriminate|reflexivity].
Qed.

Lemma outcomes_all_fail (table : list Central.row) (payload : json) (n : nat) :
  Claims.fails (fst (Central.central_session execute_insert table payload)) ->
  snd (Central.central_session execute_insert table payload) = table ->
  Forall Claims.fails
    (Claims.outcomes (Central.central_session execute_insert) table payload n).
Proof.
  intros Hf Hs. induction n as [|n IH]; simpl; [constructor|].
  destruct (Central.central_session execute_insert table payload) as [o table'].
  simpl in *. subst table'. constructor; assumption.
Qed.

(** C10.  With the central server behind the session: when the edge server
    answers that the reading was forwarded, the table has gained exactly one
    row and its [is_anomaly] is 0, whatever the detector said; and the row
    that a payload makes does not depend on the payload's [status],
    [flagged] and [anomaly], which the store never reads. *)
Theorem anomaly_verdict_never_stored (r : json) (w : Edge.world (list Central.row)) :
  let result := Edge.receive_data (Central.central_session execute_insert) r w in
  (fst result = Some Edge.delivered ->
   exists row, Edge.store (snd result) = Edge.store w ++ [row]
               /\ Central.is_anomaly row = 0%Z)
  /\ (forall (p p' : Edge.reading) (payload payload' : json),
        Edge.city p = Edge.city p' -> Edge.timestamp p = Edge.timestamp p' ->
        Edge.voltage p = Edge.voltage p' -> Edge.current p = Edge.current p' ->
        Edge.power_consumption p = Edge.power_consumption p' ->
        Edge.required_fields r p = Ok payload ->
        Edge.required_fields r p' = Ok payload' ->
        Central.store_data execute_insert (Edge.store w) payload
        = Central.store_data execute_insert (Edge.store w) payload').
Proof.
  intros result. split.
  - subst result. unfold Edge.receive_data, Edge.bind.
    destruct (prepare_cases r w) as (Hstore & _ & Hpayload).
    destruct (Edge.prepare r w) as [[payload|e] w1]; simpl in Hstore, Hpayload;
      [|simpl; discriminate].
    destruct (Hpayload payload eq_refl) as (processed & Hp).
    destruct (central_session_stored (Edge.store w1) payload)
      as [(row & Hrow & Hcs)|[Hfail Hsame]].
    + change (seq 0 Edge.max_retries) with (0 :: seq 1 2).
      cbn [Edge.forward]. unfold Edge.session_post_call. rewrite Hcs.
      simpl. intros _. exists row. rewrite Hstore. split; [reflexivity|].
      exact (insert_params_of_payload r processed payload row Hp Hrow).
    + destruct (forward_from (Central.central_session execute_insert)
                  Edge.max_retries 0 payload w1 eq_refl)
        as (m & _ & _ & _ & Hall & _); [unfold Edge.max_retries; lia|].
      destruct (Hall (outcomes_all_fail _ _ _ Hfail Hsame)) as (_ & resp & Hres & Hcode & _).
      destruct (Edge.forward _ _ payload w1) as [res w2]. simpl in Hres. subst res.
      simpl. intros Heq. injection Heq as ->. discriminate.
  - intros p p' payload payload' Hc Ht Hv Hi Hpw Hp Hp'.
    unfold Central.store_data.
    rewrite (insert_params_ignores_verdict r p p' payload payload' Hc Ht Hv Hi Hpw Hp Hp').
    reflexivity.
Qed.

End Stored.

(** ** Two requests at once *)

Ltac thread_steps :=
  cbn [foldl replicate Threads.run Threads.move Threads.step Threads.goto
       Threads.start Threads.at_pc Threads.key Threads.item Threads.buffer
       Threads.first Threads.second fst snd].

Lemma window_after_alone (b : gmap pykey (list Edge.reading)) (k : pykey)
    (r : Edge.reading) :
  (if decide (Edge.WINDOW_SIZE
              < length (default [] (alter (fun w => w ++ [r]) k
                                      (if decide (is_Some (b !! k)) then b
                                       else <[k := []]> b) !! k)))
   then alter (drop 1) k
          (alter (fun w => w ++ [r]) k
             (if decide (is_Some (b !! k)) then b else <[k := []]> b))
   else alter (fun w => w ++ [r]) k
          (if decide (is_Some (b !! k)) then b else <[k := []]> b))
  = <[k := Edge.push_window (default [] (b !! k)) r]> b.
Proof.
  unfold Edge.push_window.
  destruct (b !! k) as [w|] eqn:Hk.
  - rewrite (decide_True (P := is_Some (Some w))) by eauto.
    rewrite lookup_alter_eq, Hk.
    cbn [fmap option_fmap option_map default from_option id].
    destruct (decide (Edge.WINDOW_SIZE < length (w ++ [r]))) as [Hlt|Hge];
      rewrite ?alter_alter_eq; apply map_eq; intros k';
      (destruct (decide (k = k')) as [<-|Hne];
       [rewrite lookup_alter_eq, lookup_insert_eq, Hk; reflexivity
       |rewrite lookup_alter_ne, lookup_insert_ne by exact Hne; reflexivity]).
  - rewrite (decide_False (P := is_Some None)) by (intros [? ?]; discriminate).
    rewrite alter_insert_eq, lookup_insert_eq.
    cbn [default from_option id app length].
    rewrite !decide_False by (unfold Edge.WINDOW_SIZE; lia).
    reflexivity.
Qed.

Lemma first_alone (b : gmap pykey (list Edge.reading)) (k : pykey) (r : Edge.reading)
    (other : Threads.thread) :
  Threads.run {| Threads.buffer := b; Threads.first := Threads.start k r;
                 Threads.second := other |} (replicate 5 false)
  = {| Threads.buffer := <[k := Edge.push_window (default [] (b !! k)) r]> b;
       Threads.first := Threads.goto Threads.Done (Threads.start k r);
       Threads.second := other |}.
Proof.
  rewrite <- (window_after_alone b k r).
  thread_steps.
  destruct (decide (is_Some (b !! k))); thread_steps;
    destruct (decide (Edge.WINDOW_SIZE < _)); thread_steps; reflexivity.
Qed.

Lemma second_alone (b : gmap pykey (list Edge.reading)) (k : pykey) (r : Edge.reading)
    (other : Threads.thread) :
  Threads.run {| Threads.buffer := b; Threads.first := other;
                 Threads.second := Threads.start k r |} (replicate 5 true)
  = {| Threads.buffer := <[k := Edge.push_window (default [] (b !! k)) r]> b;
       Threads.first := other;
       Threads.second := Threads.goto Threads.Done (Threads.start k r) |}.
Proof.
  rewrite <- (window_after_alone b k r).
  thread_steps.
  destruct (decide (is_Some (b !! k))); thread_steps;
    destruct (decide (Edge.WINDOW_SIZE < _)); thread_steps; reflexivity.
Qed.

Lemma run_app (st : Threads.state) (s1 s2 : list bool) :
  Threads.run st (s1 ++ s2) = Threads.run (Threads.run st s1) s2.
Proof. apply foldl_app. Qed.

Section Serial.
Context `{RT : PyRuntime}.

Lemma one_after_the_other (buffer : gmap pykey (list Edge.reading)) (k : pykey)
    (r1 r2 : Edge.reading) :
  let st := Threads.run {| Threads.buffer := buffer;
                           Threads.first := Threads.start k r1;
                           Threads.second := Threads.start k r2 |}
              (replicate 5 false ++ replicate 5 true) in
  Threads.finished st = true
  /\ Threads.buffer st = <[k := Threads.serial (default [] (buffer !! k)) r1 r2]> buffer.
Proof.
  cbn zeta. rewrite run_app, first_alone, second_alone.
  split; [reflexivity|]. cbn [Threads.buffer].
  rewrite lookup_insert_eq, insert_insert_eq. reflexivity.
Qed.

Lemma the_other_way_round (buffer : gmap pykey (list Edge.reading)) (k : pykey)
    (r1 r2 : Edge.reading) :
  let st := Threads.run {| Threads.buffer := buffer;
                           Threads.first := Threads.start k r1;
                           Threads.second := Threads.start k r2 |}
              (replicate 5 true ++ replicate 5 false) in
  Threads.finished st = true
  /\ Threads.buffer st = <[k := Threads.serial (default [] (buffer !! k)) r2 r1]> buffer.
Proof.
  cbn zeta. rewrite run_app, second_alone, first_alone.
  split; [reflexivity|]. cbn [Threads.buffer].
  rewrite lookup_insert_eq, insert_insert_eq. reflexivity.
Qed.

(** C9, amended.  The code takes no lock.  When the two invocations do not
    overlap, the window ends as the two appends in that order leave it,
    evictions included, which is also what two calls of the detector one
    after the other leave in it. *)
Theorem serial_invocations (buffer : gmap pykey (list Edge.reading)) (k : pykey)
    (r1 r2 : Edge.reading) :
  let init := {| Threads.buffer := buffer; Threads.first := Threads.start k r1;
                 Threads.second := Threads.start k r2 |} in
  let w0 := default [] (buffer !! k) in
  let one_two := Threads.run init (replicate 5 false ++ replicate 5 true) in
  let two_one := Threads.run init (replicate 5 true ++ replicate 5 false) in
  Threads.finished one_two = true
  /\ Threads.buffer one_two = <[k := Threads.serial w0 r1 r2]> buffer
  /\ Threads.finished two_one = true
  /\ Threads.buffer two_one = <[k := Threads.serial w0 r2 r1]> buffer
  /\ Edge.power_consumption
       <$> default [] (fst (Edge.detect_anomalies
                              (fst (Edge.detect_anomalies buffer k r1)) k r2) !! k)
     = Edge.power_consumption <$> Threads.serial w0 r1 r2.
Proof.
  intros init w0 one_two two_one.
  destruct (one_after_the_other buffer k r1 r2) as [H1 H2].
  destruct (the_other_way_round buffer k r1 r2) as [H3 H4].
  repeat (split; [assumption|]).
  unfold Edge.detect_anomalies. cbn [fst snd].
  rewrite !lookup_insert_eq. cbn [default from_option id].
  unfold Threads.serial. fold w0.
  rewrite !push_window_fmap. reflexivity.
Qed.

End Serial.

(** C9 as claimed fails.  A window of nine; both requests append, both then
    see eleven entries, both evict: nine are left where either serial order
    leaves ten. *)
Lemma overlapping_requests_evict_twice : ~ Claims.serialized.
Proof.
  intros H.
  specialize (H {[ KStr "Mumbai" := Sample.a_reading <$> [1; 2; 3; 4; 5; 6; 7; 8; 9]%float ]}
                (KStr "Mumbai") (Sample.a_reading 10) (Sample.a_reading 11)
                [false; false; true; true; false; true; false; true]).
  cbn zeta in H.
  assert (Hfin : Threads.finished
            (Threads.run
               {| Threads.buffer :=
                    {[ KStr "Mumbai" := Sample.a_reading <$> [1; 2; 3; 4; 5; 6; 7; 8; 9]%float ]};
                  Threads.first := Threads.start (KStr "Mumbai") (Sample.a_reading 10);
                  Threads.second := Threads.start (KStr "Mumbai") (Sample.a_reading 11) |}
               [false; false; true; true; false; true; false; true]) = true)
    by (vm_compute; reflexivity).
  destruct (H Hfin) as [Heq|Heq];
    apply (f_equal length) in Heq; vm_compute in Heq; discriminate.
Qed.

(** The first two requests for a city: both find no window, the second
    creation throws away the first append. *)
Example overlapping_requests_lose_an_update :
  let st := Threads.run {| Threads.buffer := ∅;
                           Threads.first := Threads.start (KStr "Mumbai") (Sample.a_reading 1000);
                           Threads.second := Threads.start (KStr "Mumbai") (Sample.a_reading 2000) |}
              [false; true; false; false; true; true; false; true] in
  Threads.finished st = true
  /\ Threads.buffer st !! KStr "Mumbai" = Some [Sample.a_reading 2000].
Proof. vm_compute. auto. Qed.

(** ** A reading through both servers *)

(** A reading in range, forwarded and stored: one row, [is_anomaly] 0. *)
Lemma anomaly_verdict_never_stored_witness :
  let r := Sample.mumbai 230 10 2300 in
  let result := Edge.receive_data (RT := Sample.runtime)
                  (Central.central_session (RT := Sample.runtime) Claims.always_inserts)
                  r (Claims.fresh []) in
  fst result = Some Edge.delivered
  /\ exists row, Edge.store (snd result) = [] ++ [row] /\ Central.is_anomaly row = 0%Z.
Proof.
  intros r result.
  assert (Hd : fst result = Some Edge.delivered) by (vm_compute; reflexivity).
  split; [exact Hd|].
  exact (proj1 (anomaly_verdict_never_stored (RT := Sample.runtime)
                  Claims.always_inserts r (Claims.fresh [])) Hd).
Defined.

(** * More of the edge server *)

(** ** Cities do not see each other *)

Section Isolation.
Context `{RT : PyRuntime}.

(** What a call returns and the window it leaves depend on the city's own
    window only. *)
Lemma detect_anomalies_local (b b' : gmap pykey (list Edge.reading)) (k : pykey)
    (r : Edge.reading) :
  b !! k = b' !! k ->
  snd (Edge.detect_anomalies b k r) = snd (Edge.detect_anomalies b' k r)
  /\ fst (Edge.detect_anomalies b k r) !! k = fst (Edge.detect_anomalies b' k r) !! k.
Proof.
  intros H. unfold Edge.detect_anomalies. cbn [fst snd].
  rewrite !lookup_insert_eq, H. split; reflexivity.
Qed.

Lemma detect_anomalies_other (b : gmap pykey (list Edge.reading)) (k k' : pykey)
    (r : Edge.reading) :
  k <> k' -> fst (Edge.detect_anomalies b k r) !! k' = b !! k'.
Proof.
  intros H. unfold Edge.detect_anomalies. cbn [fst].
  apply lookup_insert_ne. exact H.
Qed.

Lemma feed_local (inputs : list (pykey * Edge.reading)) (k : pykey)
    (b b' : gmap pykey (list Edge.reading)) :
  b !! k = b' !! k ->
  Runs.of_city k (snd (Runs.feed b inputs))
  = snd <$> snd (Runs.feed b' (filter (fun p => fst p = k) inputs)).
Proof.
  revert b b'. induction inputs as [|[k' r] rest IH]; intros b b' Hb; [reflexivity|].
  cbn -[Edge.detect_anomalies filter].
  destruct (decide (k' = k)) as [->|Hne].
  - rewrite filter_cons_True by reflexivity.
    cbn -[Edge.detect_anomalies filter].
    destruct (detect_anomalies_local b b' k r Hb) as [Hr Hw].
    specialize (IH _ _ Hw).
    destruct (Edge.detect_anomalies b k r) as [b1 r1].
    destruct (Edge.detect_anomalies b' k r) as [b1' r1'].
    cbn [fst snd] in *. subst r1'.
    destruct (Runs.feed b1 rest) as [f1 out1].
    destruct (Runs.feed b1' _) as [f1' out1'].
    cbn [fst snd] in *.
    change ((k, r1) :: out1) with ([(k, r1)] ++ out1).
    rewrite of_city_app, of_city_one, decide_True by reflexivity.
    rewrite IH. reflexivity.
  - rewrite filter_cons_False by exact Hne.
    assert (Hw : fst (Edge.detect_anomalies b k' r) !! k = b' !! k).
    { rewrite detect_anomalies_other by exact Hne. exact Hb. }
    specialize (IH _ _ Hw).
    destruct (Edge.detect_anomalies b k' r) as [b1 r1].
    cbn [fst snd] in *.
    destruct (Runs.feed b1 rest) as [f1 out1].
    cbn [fst snd] in *.
    change ((k', r1) :: out1) with ([(k', r1)] ++ out1).
    rewrite of_city_app, of_city_one, decide_False by exact Hne.
    exact IH.
Qed.

(** X1.  The readings the detector returns for a city, flags included, are
    those it would return had the readings of all other cities never
    arrived. *)
Theorem cities_are_isolated (inputs : list (pykey * Edge.reading)) (k : pykey) :
  Runs.of_city k (snd (Runs.feed ∅ inputs))
  = snd <$> snd (Runs.feed ∅ (filter (fun p => fst p = k) inputs)).
Proof. apply feed_local. reflexivity. Qed.

Lemma feed_of_city_length (inputs : list (pykey * Edge.reading)) (k : pykey)
    (b : gmap pykey (list Edge.reading)) :
  length (Runs.of_city k (snd (Runs.feed b inputs))) = length (Runs.of_city k inputs).
Proof.
  revert b. induction inputs as [|[k' r] rest IH]; intros b; [reflexivity|].
  cbn -[Edge.detect_anomalies].
  destruct (Edge.detect_anomalies b k' r) as [b1 r1].
  specialize (IH b1).
  destruct (Runs.feed b1 rest) as [f1 out1]. cbn [fst snd] in *.
  change ((k', r1) :: out1) with ([(k', r1)] ++ out1).
  change ((k', r) :: rest) with ([(k', r)] ++ rest).
  rewrite !of_city_app, !length_app, IH, !of_city_one.
  case_decide; reflexivity.
Qed.

(** X2.  Cold start: while fewer than nine readings of a city have come
    before it, a reading of that city is never flagged, whatever its
    power. *)
Theorem cold_start_never_flags (inputs : list (pykey * Edge.reading)) (k : pykey)
    (r : Edge.reading) :
  length (Runs.of_city k inputs) < Edge.WINDOW_SIZE - 1 ->
  Edge.anomaly (snd (Edge.detect_anomalies (fst (Runs.feed ∅ inputs)) k r)) = false.
Proof.
  intros Hlen.
  assert (Hinv : Claims.windows_of (fst (Runs.feed ∅ inputs))
                   ([] ++ snd (Runs.feed ∅ inputs))).
  { apply feed_windows_of. intros k'. rewrite lookup_empty. reflexivity. }
  cbn [app] in Hinv. specialize (Hinv k).
  unfold Edge.detect_anomalies. cbn [snd Edge.anomaly Edge.set_anomaly].
  rewrite Hinv. unfold Edge.score.
  rewrite decide_False; [reflexivity|].
  unfold Edge.push_window, Runs.last_n.
  rewrite length_app. cbn [length].
  assert (Hl : length (drop (length (Runs.of_city k (snd (Runs.feed ∅ inputs)))
                             - Edge.WINDOW_SIZE)
                         (Runs.of_city k (snd (Runs.feed ∅ inputs))))
               < Edge.WINDOW_SIZE - 1).
  { rewrite length_drop, feed_of_city_length. lia. }
  unfold Edge.WINDOW_SIZE in *.
  case_decide; rewrite ?length_drop, ?length_app; cbn [length]; lia.
Qed.

End Isolation.

(** Three readings in, the fourth is not flagged. *)
Lemma cold_start_never_flags_witness :
  let inputs := (fun p => (KStr "Mumbai", Sample.a_reading p)) <$> [1000; 1000; 1000]%float in
  length (Runs.of_city (KStr "Mumbai") inputs) < Edge.WINDOW_SIZE - 1
  /\ Edge.anomaly
       (snd (Edge.detect_anomalies (RT := Sample.runtime)
               (fst (Runs.feed (RT := Sample.runtime) ∅ inputs))
               (KStr "Mumbai") (Sample.a_reading 5000))) = false.
Proof.
  intros inputs.
  assert (H : length (Runs.of_city (KStr "Mumbai") inputs) < Edge.WINDOW_SIZE - 1)
    by (vm_compute; lia).
  split; [exact H|].
  exact (cold_start_never_flags (RT := Sample.runtime) inputs (KStr "Mumbai")
           (Sample.a_reading 5000) H).
Defined.

(** ** What the caller gets, and what stays behind *)

Section Answers.
Context `{RT : PyRuntime} {S : Type}.
Variable session_post : S -> json -> Edge.post_outcome * S.

(** The loop never runs out without a [return]. *)
Lemma forward_answers (n a : nat) (payload : json) (w : Edge.world S) :
  a + n = Edge.max_retries -> 1 <= n ->
  match fst (Edge.forward session_post (seq a n) payload w) with
  | Ok (Some r) => r = Edge.delivered \/ (resp_code r = 500%Z /\ resp_status r = "error")
  | Ok None => False
  | Raise _ => True
  end.
Proof.
  revert a w. induction n as [|n IH]; intros a w Hsum Hn; [lia|].
  cbn [seq Edge.forward]. unfold Edge.session_post_call.
  destruct (session_post (Edge.store w) payload) as [o s'].
  set (w1 := {| Edge.readings_buffer := Edge.readings_buffer w; Edge.store := s';
                Edge.trace := Edge.trace w ++ [Edge.EvPost payload] |}).
  assert (Hretry : forall final : http_response,
            resp_code final = 500%Z -> resp_status final = "error" ->
            match fst (if decide (a < Edge.max_retries - 1)
                       then Edge.bind (Edge.emit (Edge.EvSleep (Edge.retry_delay * 2 ^ Z.of_nat a)))
                              (fun _ => Edge.forward session_post (seq (Datatypes.S a) n) payload) w1
                       else (Ok (Some final), w1)) with
            | Ok (Some r) => r = Edge.delivered \/ (resp_code r = 500%Z /\ resp_status r = "error")
            | Ok None => False
            | Raise _ => True
            end).
  { intros final Hc Hs. unfold Edge.max_retries in *. case_decide.
    - unfold Edge.bind, Edge.emit. apply IH; lia.
    - cbn [fst]. right. split; assumption. }
  destruct o as [status_code body|e].
  - destruct (status_code =? 200)%Z; [cbn [fst]; left; reflexivity|].
    destruct body as [j|e]; cbn [rbind].
    + destruct j; cbn [dict_get]; try exact I. apply Hretry; reflexivity.
    + destruct (is_request_exception e); [apply Hretry; reflexivity|exact I].
  - destruct (is_request_exception e); [apply Hretry; reflexivity|exact I].
Qed.

(** X3.  Every request is answered: with 200 and [success] when the reading
    was delivered, and otherwise with 500 and [error]; the handler never
    falls through without a response. *)
Theorem receive_data_always_answers (r : json) (w : Edge.world S) :
  exists response,
    fst (Edge.receive_data session_post r w) = Some response
    /\ (response = Edge.delivered
        \/ (resp_code response = 500%Z /\ resp_status response = "error")).
Proof.
  unfold Edge.receive_data, Edge.bind.
  destruct (Edge.prepare r w) as [[payload|e] w1].
  - pose proof (forward_answers Edge.max_retries 0 payload w1 eq_refl) as H.
    destruct (Edge.forward session_post (seq 0 Edge.max_retries) payload w1)
      as [[[response|]|e] w2]; cbn [fst] in *.
    + exists response. split; [reflexivity|]. apply H. unfold Edge.max_retries. lia.
    + exfalso. apply H. unfold Edge.max_retries. lia.
    + eexists. split; [reflexivity|]. right. split; reflexivity.
  - eexists. split; [reflexivity|]. right. split; reflexivity.
Qed.

End Answers.

Section Leftover.
Context `{RT : PyRuntime} {S1 S2 : Type}.
Variable session1 : S1 -> json -> Edge.post_outcome * S1.
Variable session2 : S2 -> json -> Edge.post_outcome * S2.

Lemma prepare_buffer (r : json) (w1 : Edge.world S1) (w2 : Edge.world S2) :
  Edge.readings_buffer w1 = Edge.readings_buffer w2 ->
  fst (Edge.prepare r w1) = fst (Edge.prepare r w2)
  /\ Edge.readings_buffer (snd (Edge.prepare r w1))
     = Edge.readings_buffer (snd (Edge.prepare r w2)).
Proof.
  intros Hb.
  unfold Edge.prepare, Edge.bind, Edge.lift, Edge.call_detect_anomalies, Edge.emit.
  destruct (subscript r "city") as [j|e]; [|split; [reflexivity|exact Hb]].
  destruct (Edge.clean_data r) as [c|e]; [|split; [reflexivity|exact Hb]].
  destruct (dict_key j) as [|k];
    cbn [Edge.readings_buffer Edge.store Edge.trace Edge.ret fst snd].
  - split; [reflexivity|exact Hb].
  - unfold Edge.bind, Edge.detect_anomalies.
    cbn [Edge.readings_buffer Edge.store Edge.trace fst snd].
    rewrite Hb. split; reflexivity.
Qed.

(** X4.  The windows after a request do not depend on what the store does:
    a reading that is scored stays in its city's window when the delivery
    fails, and also when the request ends in an error after the detector
    has run. *)
Theorem window_kept_whatever_the_delivery (r : json) (w1 : Edge.world S1)
    (w2 : Edge.world S2) :
  Edge.readings_buffer w1 = Edge.readings_buffer w2 ->
  Edge.readings_buffer (snd (Edge.receive_data session1 r w1))
  = Edge.readings_buffer (snd (Edge.receive_data session2 r w2)).
Proof.
  intros Hb.
  rewrite !receive_data_world. unfold Edge.bind.
  destruct (prepare_buffer r w1 w2 Hb) as [Hres Hbuf].
  destruct (Edge.prepare r w1) as [[payload|e] w1'];
    destruct (Edge.prepare r w2) as [[payload'|e'] w2'];
    cbn [fst snd] in *; try discriminate; [|exact Hbuf].
  injection Hres as <-.
  destruct (forward_from session1 Edge.max_retries 0 payload w1' eq_refl)
    as (_ & _ & _ & Hb1 & _); [unfold Edge.max_retries; lia|].
  destruct (forward_from session2 Edge.max_retries 0 payload w2' eq_refl)
    as (_ & _ & _ & Hb2 & _); [unfold Edge.max_retries; lia|].
  rewrite Hb1, Hb2. exact Hbuf.
Qed.

End Leftover.

(** The same reading against a store that is down and against one that is
    up: the window ends the same, the answers differ. *)
Lemma window_kept_whatever_the_delivery_witness :
  let r := Sample.mumbai 230 10 2300 in
  let down := Edge.receive_data (RT := Sample.runtime)
                (Claims.answering 503 "unavailable") r (Claims.fresh tt) in
  let up := Edge.receive_data (RT := Sample.runtime) Claims.accepting r (Claims.fresh tt) in
  Edge.readings_buffer (snd down) = Edge.readings_buffer (snd up)
  /\ length (default [] (Edge.readings_buffer (snd down) !! KStr "Mumbai")) = 1
  /\ fst down <> fst up.
Proof.
  intros r down up. split; [|split].
  - exact (window_kept_whatever_the_delivery (RT := Sample.runtime)
             (Claims.answering 503 "unavailable") Claims.accepting
             r (Claims.fresh tt) (Claims.fresh tt) eq_refl).
  - vm_compute. reflexivity.
  - vm_compute. discriminate.
Defined.

(** * The IoT simulator *)

Lemma meter_step_counter (cf n : nat) (t : Meter.round) :
  cf = n mod 5 ->
  fst (Meter.step cf t)
  = (match Meter.verdict_of t with
     | Meter.Skipped => n
     | Meter.Taken => 0
     | Meter.Refused => S n
     end) mod 5.
Proof.
  intros Hcf.
  assert (Hlt : cf < 5) by (subst cf; apply Nat.mod_upper_bound; lia).
  assert (Hs : S n mod 5 = if decide (5 <= S cf) then 0 else S cf).
  { subst cf. pose proof (Nat.div_mod_eq n 5) as Hn.
    case_decide as H5; symmetry.
    - apply (Nat.mod_unique _ _ (S (n / 5))); lia.
    - apply (Nat.mod_unique _ _ (n / 5)); lia. }
  unfold Meter.step, Meter.verdict_of, Meter.max_consecutive_failures.
  destruct (negb (Meter.check_edge_server (Meter.health t))); [exact Hcf|].
  destruct (negb (truthy (Meter.generated t))); [exact Hcf|].
  destruct (Meter.posted t) as [status_code body|e].
  - destruct (status_code =? 200)%Z.
    + rewrite decide_False by lia. reflexivity.
    + rewrite Hs. case_decide; reflexivity.
  - rewrite Hs. case_decide; reflexivity.
Qed.

(** X5.  Whatever the edge server answers, [consecutive_failures] stays
    below five, and after any number of rounds it is the number of refused
    sends in a row at that point, counted modulo five: a round in which
    nothing was sent neither adds to the row nor breaks it, a send that is
    taken ends it, and the fifth refusal ends it with the long wait. *)
Theorem consecutive_failures_counts_the_row (rounds : list Meter.round) :
  fst (Meter.simulate 0 rounds) = Meter.in_a_row rounds mod 5
  /\ fst (Meter.simulate 0 rounds) < Meter.max_consecutive_failures.
Proof.
  assert (H : forall cf n, cf = n mod 5 ->
            fst (Meter.simulate cf rounds)
            = foldl (fun n t => match Meter.verdict_of t with
                                | Meter.Skipped => n
                                | Meter.Taken => 0
                                | Meter.Refused => S n
                                end) n rounds mod 5).
  { induction rounds as [|t rest IH]; intros cf n Hcf; [exact Hcf|].
    cbn [Meter.simulate foldl].
    pose proof (meter_step_counter cf n t Hcf) as Hstep.
    destruct (Meter.step cf t) as [failures evs]. cbn [fst] in Hstep.
    specialize (IH failures _ Hstep).
    destruct (Meter.simulate failures rest) as [final more]. exact IH. }
  specialize (H 0 0 eq_refl). fold (Meter.in_a_row rounds) in H.
  split; [exact H|].
  rewrite H. unfold Meter.max_consecutive_failures.
  apply Nat.mod_upper_bound. lia.
Qed.

(** Seven refusals with a skipped round among them: one long wait after the
    fifth, and two failures counted at the end. *)
Example seven_refusals :
  let refused := {| Meter.health := Edge.PostResponse 200 (Ok (JObj []));
                    Meter.generated := JObj [("city", JStr "Mumbai")];
                    Meter.posted := Edge.PostResponse 500 (Ok (JObj []));
                    Meter.delay := 2 |} in
  let down := {| Meter.health := Edge.PostRaises (RequestException "refused");
                 Meter.generated := JObj [("city", JStr "Mumbai")];
                 Meter.posted := Edge.PostResponse 500 (Ok (JObj []));
                 Meter.delay := 2 |} in
  let rounds := [refused; refused; down; refused; refused; refused; refused; refused] in
  fst (Meter.simulate 0 rounds) = 2
  /\ Meter.in_a_row rounds = 7
  /\ snd (Meter.simulate 0 [refused; refused; down; refused; refused; refused])
     = [Meter.Send (JObj [("city", JStr "Mumbai")]); Meter.Wait 2;
        Meter.Send (JObj [("city", JStr "Mumbai")]); Meter.Wait 2;
        Meter.Wait 5;
        Meter.Send (JObj [("city", JStr "Mumbai")]); Meter.Wait 2;
        Meter.Send (JObj [("city", JStr "Mumbai")]); Meter.Wait 2;
        Meter.Send (JObj [("city", JStr "Mumbai")]); Meter.Wait 30].
Proof. vm_compute. auto. Qed.

Section MeterAgainstEdge.
Context `{RT : PyRuntime} {S : Type}.
Variable session_post : S -> json -> Edge.post_outcome * S.
Variable round2 : float -> float.

(** X6.  No reading that [SmartMeter.generate_reading] builds gets through
    the edge server: it has the five required fields only, so
    [receive_data] answers 500 and posts nothing, whatever the draws, the
    city and the time, and the simulator's round counts as a failure. *)
Theorem meter_readings_are_refused (city now : string)
    (voltage_variation current_variation : float) (w : Edge.world S) (d : float) :
  let reading := Meter.generate_reading round2 city now
                   voltage_variation current_variation in
  let result := Edge.receive_data session_post reading w in
  Claims.count_posts (Claims.added (Edge.trace w) (Edge.trace (snd result))) = 0
  /\ exists response,
       fst result = Some response /\ resp_code response = 500%Z
       /\ Meter.verdict_of
            {| Meter.health := Edge.PostResponse 200 (Ok (JObj [("status", JStr "healthy")]));
               Meter.generated := reading;
               Meter.posted := Edge.PostResponse (resp_code response)
                                 (Ok (JObj [("status", JStr (resp_status response));
                                            ("message", JStr (resp_message response))]));
               Meter.delay := d |} = Meter.Refused.
Proof.
  intros reading result.
  assert (Hne : ~ Claims.enriched reading).
  { intros ((x & Hx) & _). cbn in Hx. discriminate. }
  destruct (missing_enrichment_never_posted session_post reading w Hne)
    as (Hcount & response & Hresp & Hcode & _).
  split; [exact Hcount|].
  exists response. injection Hresp as Hresp.
  split; [exact Hresp|]. split; [exact Hcode|].
  unfold Meter.verdict_of. cbn [Meter.health Meter.generated Meter.posted
    Meter.check_edge_server negb Z.eqb Pos.eqb]. rewrite Hcode. reflexivity.
Qed.

End MeterAgainstEdge.

(** * The central server's query *)

Section CityStats.
Context `{RT : PyRuntime}.
Variable time_threshold : Z -> result string.
Variable stored_text : json -> string.
Variable real_affinity : json -> json.
Variable order_by_timestamp_desc : list (Z * Central.row) -> list (Z * Central.row).

(** What [ORDER BY timestamp DESC] promises: the same rows, none before an
    earlier one. *)
Hypothesis order_keeps : forall l, order_by_timestamp_desc l ≡ₚ l.
Hypothesis order_sorts :
  forall l, Sorted (Stats.by_timestamp_desc stored_text) (order_by_timestamp_desc l).

(** X7.  When the threshold can be computed, [get_city_stats] answers with
    exactly the stored rows of that city whose timestamp text is greater
    than the threshold, each once, newest first; every reading of the
    answer has the city asked for; and a city without rows gets the empty
    list, not an error. *)
Theorem city_stats_are_the_citys_rows (table : list Central.row) (city : string)
    (hours : option Z) (threshold : string) :
  time_threshold (default 24%Z hours) = Ok threshold ->
  exists readings,
    Stats.get_city_stats time_threshold stored_text real_affinity
      order_by_timestamp_desc table city hours
    = Stats.Readings city readings
    /\ readings
       ≡ₚ Stats.to_reading stored_text real_affinity
            <$> filter (fun p => Stats.selected stored_text city threshold p = true)
                       (Stats.numbered table)
    /\ Sorted Stats.newest_first readings
    /\ Forall (fun rd => Stats.city rd = city
                         /\ String.ltb threshold (Stats.timestamp rd) = true) readings
    /\ ((forall row, row ∈ table ->
                     Stats.column_text stored_text (Central.city row) <> city) ->
        readings = []).
Proof.
  intros Hth. unfold Stats.get_city_stats. rewrite Hth.
  eexists. split; [reflexivity|].
  split; [rewrite order_keeps; reflexivity|].
  split.
  { apply Sorted_fmap with (R1 := Stats.by_timestamp_desc stored_text);
      [|apply order_sorts].
    intros x y Hxy. exact Hxy. }
  split.
  { apply Forall_fmap, Forall_forall. intros p Hp.
    rewrite order_keeps in Hp. apply list_elem_of_filter in Hp as [Hsel _].
    unfold Stats.selected in Hsel. apply andb_true_iff in Hsel as [Hc Ht].
    apply String.eqb_eq in Hc. split; [exact Hc|exact Ht]. }
  intros Hnone.
  assert (Hnil : filter (fun p => Stats.selected stored_text city threshold p = true)
                   (Stats.numbered table) = []).
  { destruct (filter _ (Stats.numbered table)) as [|p rest] eqn:Hf; [reflexivity|].
    exfalso.
    assert (Hp : p ∈ filter (fun p => Stats.selected stored_text city threshold p = true)
                   (Stats.numbered table)) by (rewrite Hf; left).
    apply list_elem_of_filter in Hp as [Hsel Hin].
    unfold Stats.numbered in Hin.
    apply elem_of_lookup_imap in Hin as (i & row & -> & Hrow).
    apply (Hnone row); [eapply list_elem_of_lookup_2; exact Hrow|].
    unfold Stats.selected in Hsel. apply andb_true_iff in Hsel as [Hc _].
    apply String.eqb_eq in Hc. exact Hc. }
  rewrite Hnil.
  pose proof (order_keeps []) as Hperm. apply Permutation_nil_r in Hperm.
  rewrite Hperm. reflexivity.
Qed.

End CityStats.

#[local] Instance by_timestamp_desc_total (f : json -> string) :
  Total (Stats.by_timestamp_desc f).
Proof.
  intros a b. unfold Stats.by_timestamp_desc.
  destruct (String.leb_total
              (Stats.column_text f (Central.timestamp (snd b)))
              (Stats.column_text f (Central.timestamp (snd a)))); auto.
Qed.

(** Four rows, three of Mumbai, one of them older than the threshold: the
    answer has the other two, the later one first. *)
Lemma city_stats_are_the_citys_rows_witness :
  (forall l, StatsSample.order l ≡ₚ l)
  /\ (forall l, Sorted (Stats.by_timestamp_desc StatsSample.text) (StatsSample.order l))
  /\ exists readings,
       Stats.get_city_stats (RT := Sample.runtime) StatsSample.threshold
         StatsSample.text (fun j => j) StatsSample.order StatsSample.table "Mumbai" None
       = Stats.Readings "Mumbai" readings
       /\ Sorted Stats.newest_first readings
       /\ Stats.id <$> readings = [4; 1]%Z.
Proof.
  assert (Hk : forall l, StatsSample.order l ≡ₚ l)
    by (intros l; apply merge_sort_Permutation).
  assert (Hs : forall l, Sorted (Stats.by_timestamp_desc StatsSample.text)
                           (StatsSample.order l))
    by (intros l; apply (Sorted_merge_sort _)).
  split; [exact Hk|]. split; [exact Hs|].
  destruct (city_stats_are_the_citys_rows (RT := Sample.runtime) StatsSample.threshold
              StatsSample.text (fun j => j) StatsSample.order Hk Hs
              StatsSample.table "Mumbai" None "2024-01-15T00:00:00" eq_refl)
    as (readings & Heq & _ & Hsorted & _).
  exists readings. split; [exact Heq|]. split; [exact Hsorted|].
  vm_compute in Heq. injection Heq as <-. reflexivity.
Defined.

(** ** Storing, and finding again *)

Lemma raises_rbind_l {A B} (m : result A) (k : A -> result B) :
  is_ok m = false -> is_ok (rbind m k) = false.
Proof. destruct m; [discriminate|reflexivity]. Qed.

Lemma raises_rbind_r {A B} (m : result A) (k : A -> result B) :
  (forall a, is_ok (k a) = false) -> is_ok (rbind m k) = false.
Proof. intros H. destruct m; [apply H|reflexivity]. Qed.

Section StoreData.
Context `{RT : PyRuntime}.
Variable execute_insert : Central.row -> result unit.

Lemma insert_params_inv (data : json) (row : Central.row) :
  Central.insert_params data = Ok row ->
  subscript data "city" = Ok (Central.city row)
  /\ subscript data "timestamp" = Ok (Central.timestamp row)
  /\ rbind (subscript data "voltage") py_float = Ok (Central.voltage row)
  /\ rbind (subscript data "current") py_float = Ok (Central.current row)
  /\ rbind (subscript data "power_consumption") py_float
     = Ok (Central.power_consumption row)
  /\ (exists j, dict_get data "is_anomaly" (JBool false) = Ok j
                /\ Central.is_anomaly row = if truthy j then 1%Z else 0%Z)
  /\ (exists j, dict_get data "is_peak_hour" (JBool false) = Ok j
                /\ Central.is_peak_hour row = if truthy j then 1%Z else 0%Z)
  /\ rbind (dict_get data "temperature" (JInt 0)) py_float = Ok (Central.temperature row)
  /\ rbind (dict_get data "humidity" (JInt 0)) py_float = Ok (Central.humidity row)
  /\ rbind (dict_get data "per_capita_consumption" (JInt 0)) py_float
     = Ok (Central.per_capita_consumption row)
  /\ rbind (dict_get data "efficiency_score" (JInt 0)) py_float
     = Ok (Central.efficiency_score row)
  /\ (exists zone_dist,
        dict_get data "zone_distribution" (JObj []) = Ok zone_dist
        /\ dict_get zone_dist "industrial" (JInt 0) = Ok (Central.zone_industrial row)
        /\ dict_get zone_dist "residential" (JInt 0) = Ok (Central.zone_residential row)
        /\ dict_get zone_dist "commercial" (JInt 0) = Ok (Central.zone_commercial row)).
Proof.
  unfold Central.insert_params. intros H.
  apply rbind_ok in H as (zone_dist & Hz & H).
  apply rbind_ok in H as (af & Haf & H).
  apply rbind_ok in H as (pf & Hpf & H).
  apply rbind_ok in H as (c & Hc & H).
  apply rbind_ok in H as (ts & Hts & H).
  apply rbind_ok in H as (v & Hv & H).
  apply rbind_ok in H as (i & Hi & H).
  apply rbind_ok in H as (p & Hp & H).
  apply rbind_ok in H as (t & Ht & H).
  apply rbind_ok in H as (h & Hh & H).
  apply rbind_ok in H as (zi & Hzi & H).
  apply rbind_ok in H as (zr & Hzr & H).
  apply rbind_ok in H as (zc & Hzc & H).
  apply rbind_ok in H as (pc & Hpc & H).
  apply rbind_ok in H as (es & Hes & H).
  injection H as <-. cbn.
  repeat split; eauto 10.
Qed.

(** X8.  [store_data] stores nothing unless it answers 200: a body that is
    no JSON object, or one without [city], [timestamp], [voltage],
    [current] or [power_consumption], is answered with 500 and [error], and
    the table is as before. *)
Theorem store_data_needs_the_required_fields (table : list Central.row)
    (data : json) (k : string) :
  k ∈ ["city"; "timestamp"; "voltage"; "current"; "power_consumption"] ->
  is_ok (subscript data k) = false ->
  let '(response, table') := Central.store_data execute_insert table data in
  resp_code response = 500%Z /\ resp_status response = "error" /\ table' = table.
Proof.
  intros Hk Hmiss.
  assert (Hraise : is_ok (Central.insert_params data) = false).
  { unfold Central.insert_params.
    do 3 (apply raises_rbind_r; intros ?).
    repeat (apply elem_of_cons in Hk as [->|Hk]).
    - apply raises_rbind_l. exact Hmiss.
    - apply raises_rbind_r; intros ?. apply raises_rbind_l. exact Hmiss.
    - do 2 (apply raises_rbind_r; intros ?).
      apply raises_rbind_l, raises_rbind_l. exact Hmiss.
    - do 3 (apply raises_rbind_r; intros ?).
      apply raises_rbind_l, raises_rbind_l. exact Hmiss.
    - do 4 (apply raises_rbind_r; intros ?).
      apply raises_rbind_l, raises_rbind_l. exact Hmiss.
    - apply elem_of_nil in Hk. contradiction. }
  unfold Central.store_data.
  destruct (Central.insert_params data); [discriminate|].
  cbn. repeat split.
Qed.

(** X9.  A body with the five required fields and none of the optional ones
    makes a row with temperature, humidity, the three zone columns, the
    per-capita and the efficiency figures at zero and both flags at 0. *)
Theorem store_data_defaults_absent_fields (fields : list (string * json))
    (row : Central.row) :
  Central.insert_params (JObj fields) = Ok row ->
  Forall (fun k => assoc k fields = None)
    ["temperature"; "humidity"; "zone_distribution"; "is_anomaly"; "is_peak_hour";
     "per_capita_consumption"; "efficiency_score"] ->
  Central.temperature row = 0%float /\ Central.humidity row = 0%float
  /\ Central.zone_industrial row = JInt 0 /\ Central.zone_residential row = JInt 0
  /\ Central.zone_commercial row = JInt 0
  /\ Central.is_anomaly row = 0%Z /\ Central.is_peak_hour row = 0%Z
  /\ Central.per_capita_consumption row = 0%float
  /\ Central.efficiency_score row = 0%float.
Proof.
  intros Hrow Habs.
  repeat (apply Forall_cons in Habs as [? Habs]).
  destruct (insert_params_inv _ _ Hrow)
    as (_ & _ & _ & _ & _ & (ja & Hja & Ha) & (jp & Hjp & Hp) & Ht & Hh & Hpc & Hes
        & zd & Hzd & Hzi & Hzr & Hzc).
  cbn [dict_get] in *.
  repeat match goal with
  | H : assoc ?k fields = None |- _ => rewrite H in *; clear H
  end.
  cbn [default from_option id] in *.
  injection Hja as <-. injection Hjp as <-. injection Hzd as <-.
  cbn in Hzi, Hzr, Hzc, Ht, Hh, Hpc, Hes, Ha, Hp.
  injection Hzi as <-. injection Hzr as <-. injection Hzc as <-.
  injection Ht as <-. injection Hh as <-. injection Hpc as <-. injection Hes as <-.
  rewrite Ha, Hp. repeat split.
Qed.

End StoreData.

(** A body without a timestamp, sent to a table of four rows. *)
Lemma store_data_needs_the_required_fields_witness :
  let data := JObj [("city", JStr "Mumbai"); ("voltage", JFloat 230)] in
  "timestamp" ∈ ["city"; "timestamp"; "voltage"; "current"; "power_consumption"]
  /\ is_ok (subscript data "timestamp") = false
  /\ let '(response, table') :=
       Central.store_data (RT := Sample.runtime) Claims.always_inserts
         StatsSample.table data in
     resp_code response = 500%Z /\ resp_status response = "error"
     /\ table' = StatsSample.table.
Proof.
  intros data.
  assert (Hk : "timestamp" ∈ ["city"; "timestamp"; "voltage"; "current";
                              "power_consumption"])
    by (right; left).
  split; [exact Hk|]. split; [reflexivity|].
  exact (store_data_needs_the_required_fields (RT := Sample.runtime)
           Claims.always_inserts StatsSample.table data "timestamp" Hk eq_refl).
Defined.

(** The body that [smart_meter.py] builds, given to the store. *)
Lemma store_data_defaults_absent_fields_witness :
  let fields := [("city", JStr "Mumbai"); ("timestamp", JStr "2024-01-15T10:30:00");
                 ("voltage", JFloat 230); ("current", JFloat 10);
                 ("power_consumption", JFloat 2300)] in
  exists row,
    Central.insert_params (RT := Sample.runtime) (JObj fields) = Ok row
    /\ Central.temperature row = 0%float /\ Central.humidity row = 0%float
    /\ Central.zone_industrial row = JInt 0
    /\ Central.is_anomaly row = 0%Z
    /\ Central.power_consumption row = 2300%float.
Proof.
  intros fields.
  destruct (Central.insert_params (RT := Sample.runtime) (JObj fields)) as [row|e] eqn:Hrow;
    [|vm_compute in Hrow; discriminate].
  exists row. split; [reflexivity|].
  destruct (store_data_defaults_absent_fields (RT := Sample.runtime) fields row Hrow)
    as (Ht & Hh & Hzi & _ & _ & Ha & _).
  { repeat constructor. }
  repeat (split; [assumption|]).
  vm_compute in Hrow. injection Hrow as <-. reflexivity.
Defined.

Section RoundTrip.
Context `{RT : PyRuntime}.
Variable execute_insert : Central.row -> result unit.
Variable time_threshold : Z -> result string.
Variable stored_text : json -> string.
Variable real_affinity : json -> json.
Variable order_by_timestamp_desc : list (Z * Central.row) -> list (Z * Central.row).
Hypothesis order_keeps : forall l, order_by_timestamp_desc l ≡ₚ l.

(** X10.  Store, then ask: a reading that [store_data] took, with a string
    for its city and a timestamp later than the threshold, is in the
    answer of [get_city_stats] for that city, under the next [id], with its
    timestamp, with the voltage that was stored, and with [is_anomaly]
    the truth value of the body's [is_anomaly] field (false when the body
    has none). *)
Theorem stored_reading_is_found (table table' : list Central.row) (data : json)
    (c t threshold : string) (hours : option Z) :
  Central.store_data execute_insert table data = (Central.stored, table') ->
  subscript data "city" = Ok (JStr c) ->
  subscript data "timestamp" = Ok (JStr t) ->
  time_threshold (default 24%Z hours) = Ok threshold ->
  String.ltb threshold t = true ->
  exists readings rd v anomaly_field,
    Stats.get_city_stats time_threshold stored_text real_affinity
      order_by_timestamp_desc table' c hours = Stats.Readings c readings
    /\ rd ∈ readings
    /\ Stats.id rd = Z.of_nat (S (length table))
    /\ Stats.city rd = c /\ Stats.timestamp rd = t
    /\ rbind (subscript data "voltage") py_float = Ok v
    /\ Stats.voltage rd = Stats.real_out v
    /\ dict_get data "is_anomaly" (JBool false) = Ok anomaly_field
    /\ Stats.is_anomaly rd = truthy anomaly_field.
Proof.
  intros Hstore Hc Ht Hth Hlater.
  unfold Central.store_data in Hstore.
  destruct (Central.insert_params data) as [row|e] eqn:Hrow;
    [|cbn in Hstore; discriminate].
  cbn [rbind] in Hstore.
  destruct (execute_insert row) as [[]|e]; cbn in Hstore; [|discriminate].
  injection Hstore as <-.
  destruct (insert_params_inv data row Hrow)
    as (Hrc & Hrt & Hv & _ & _ & (ja & Hja & Ha) & _).
  rewrite Hc in Hrc. injection Hrc as Hrc.
  rewrite Ht in Hrt. injection Hrt as Hrt.
  set (p := (Z.of_nat (S (length table)), row)).
  exists (Stats.to_reading stored_text real_affinity
            <$> order_by_timestamp_desc
                  (filter (fun p => Stats.selected stored_text c threshold p = true)
                          (Stats.numbered (table ++ [row])))),
    (Stats.to_reading stored_text real_affinity p), (Central.voltage row), ja.
  split; [unfold Stats.get_city_stats; rewrite Hth; reflexivity|].
  split.
  { apply list_elem_of_fmap_2. rewrite order_keeps.
    apply list_elem_of_filter. split.
    - unfold Stats.selected, p. cbn [snd]. rewrite <- Hrc, <- Hrt. cbn [Stats.column_text].
      rewrite String.eqb_refl, Hlater. reflexivity.
    - unfold Stats.numbered. rewrite imap_app. apply elem_of_app. right.
      cbn [imap]. rewrite Nat.add_0_r. left. }
  unfold Stats.to_reading, p.
  cbn [Stats.id Stats.city Stats.timestamp Stats.voltage Stats.is_anomaly fst snd].
  rewrite <- Hrc, <- Hrt. cbn [Stats.column_text].
  repeat (split; [first [reflexivity|assumption]|]).
  rewrite Ha. destruct (truthy ja); reflexivity.
Qed.

End RoundTrip.

(** A reading of Mumbai stored into the table of four rows and asked for. *)
Lemma stored_reading_is_found_witness :
  let data := Sample.mumbai 231 10 2310 in
  let table' := StatsSample.table
                ++ [{| Central.city := JStr "Mumbai";
                       Central.timestamp := JStr "2024-01-15T10:30:00";
                       Central.voltage := 231; Central.current := 10;
                       Central.power_consumption := 2310;
                       Central.temperature := 30.5; Central.humidity := 70;
                       Central.is_anomaly := 0; Central.is_peak_hour := 1;
                       Central.zone_industrial := JFloat 300;
                       Central.zone_residential := JFloat 500;
                       Central.zone_commercial := JFloat 200;
                       Central.per_capita_consumption := 49.5;
                       Central.efficiency_score := 0.875 |}] in
  Central.store_data (RT := Sample.runtime) Claims.always_inserts StatsSample.table data
  = (Central.stored, table')
  /\ exists readings rd,
       Stats.get_city_stats (RT := Sample.runtime) StatsSample.threshold StatsSample.text
         (fun j => j) StatsSample.order table' "Mumbai" (Some 12%Z)
       = Stats.Readings "Mumbai" readings
       /\ rd ∈ readings /\ Stats.id rd = 5%Z
       /\ Stats.voltage rd = JFloat 231 /\ Stats.is_anomaly rd = false.
Proof.
  intros data table'.
  assert (Hstore : Central.store_data (RT := Sample.runtime) Claims.always_inserts
                     StatsSample.table data = (Central.stored, table'))
    by (vm_compute; reflexivity).
  split; [exact Hstore|].
  destruct (stored_reading_is_found (RT := Sample.runtime) Claims.always_inserts
              StatsSample.threshold StatsSample.text (fun j => j) StatsSample.order
              (fun l => merge_sort_Permutation _ l)
              StatsSample.table table' data "Mumbai" "2024-01-15T10:30:00"
              "2024-01-15T00:00:00" (Some 12%Z) Hstore eq_refl eq_refl eq_refl eq_refl)
    as (readings & rd & v & ja & Hq & Hin & Hid & _ & _ & Hv & Hvolt & Hja & Ha).
  exists readings, rd.
  split; [exact Hq|]. split; [exact Hin|]. split; [exact Hid|].
  vm_compute in Hv. injection Hv as <-.
  vm_compute in Hja. injection Hja as <-.
  split; [exact Hvolt|exact Ha].
Defined.

(** * The edge server's simulator *)

Lemma min_of_le (x : Z) (rest : list Z) :
  (Simulator.min_of x rest <= x)%Z
  /\ Forall (fun y => (Simulator.min_of x rest <= y)%Z) rest
  /\ (Simulator.min_of x rest = x \/ Simulator.min_of x rest ∈ rest).
Proof.
  unfold Simulator.min_of. revert x.
  induction rest as [|y rest IH]; intros x; cbn [foldl].
  - split; [lia|]. split; [constructor|]. left. reflexivity.
  - destruct (Z.ltb_spec y x) as [Hlt|Hge].
    + destruct (IH y) as (H1 & H2 & H3).
      split; [lia|]. split; [constructor; assumption|].
      right. destruct H3 as [->|H3]; [left|right; exact H3].
    + destruct (IH x) as (H1 & H2 & H3).
      split; [exact H1|]. split; [constructor; [lia|assumption]|].
      destruct H3 as [H3|H3]; [left; exact H3|right; right; exact H3].
Qed.

(** X11.  In [generate_reading] the peak factor, whenever it is computed, is
    1.0: the current hour is one of the peak hours, so its distance to the
    nearest peak hour is 0 and the whole of [peak_variation] is added; the
    gradual rise and the floor of 0.7 never come into play. *)
Theorem peak_factor_is_always_one (current_hour : Z) (peak_hours : list Z) :
  Simulator.peak_factor current_hour peak_hours
  = if decide (current_hour ∈ peak_hours) then Ok (Some 1%float) else Ok None.
Proof.
  unfold Simulator.peak_factor. case_decide as Hin; [|reflexivity].
  assert (Hzero : 0%Z ∈ (fun peak => Z.abs (current_hour - peak)) <$> peak_hours).
  { apply list_elem_of_fmap. exists current_hour. split; [lia|exact Hin]. }
  assert (Hnonneg : Forall (fun d => (0 <= d)%Z)
                      ((fun peak => Z.abs (current_hour - peak)) <$> peak_hours)).
  { apply Forall_fmap, Forall_forall. intros p _. cbn. lia. }
  destruct ((fun peak => Z.abs (current_hour - peak)) <$> peak_hours) as [|d ds];
    [apply elem_of_nil in Hzero; contradiction|].
  assert (Hmin : Simulator.min_of d ds = 0%Z).
  { destruct (min_of_le d ds) as (H1 & H2 & H3).
    apply Forall_cons in Hnonneg as [Hd Hds].
    assert (0 <= Simulator.min_of d ds)%Z.
    { destruct H3 as [->|H3]; [exact Hd|].
      rewrite Forall_forall in Hds. apply Hds. exact H3. }
    apply elem_of_cons in Hzero as [<-|Hzero]; [lia|].
    rewrite Forall_forall in H2. specialize (H2 _ Hzero). lia. }
  rewrite Hmin. reflexivity.
Qed.

(** X12.  However many start and stop requests are handled one after the
    other, at most one sender thread is alive, and one is alive exactly
    while [running] is set: a second start makes no second thread. *)
Theorem one_sender_at_most (calls : list bool) :
  let s := Simulator.requests Simulator.init calls in
  Simulator.alive s
  = (if Simulator.running s
     then match Simulator.thread s with Some t => [t] | None => [] end
     else [])
  /\ length (Simulator.alive s) <= 1
  /\ (Simulator.running s = true -> exists t, Simulator.thread s = Some t)
  /\ Simulator.made s <= length (filter (fun c => c = true) calls).
Proof.
  cbn zeta.
  assert (H : forall s n,
            Simulator.alive s
            = (if Simulator.running s
               then match Simulator.thread s with Some t => [t] | None => [] end
               else []) ->
            (Simulator.running s = true -> exists t, Simulator.thread s = Some t) ->
            Simulator.made s <= n ->
            let s' := Simulator.requests s calls in
            Simulator.alive s'
            = (if Simulator.running s'
               then match Simulator.thread s' with Some t => [t] | None => [] end
               else [])
            /\ (Simulator.running s' = true -> exists t, Simulator.thread s' = Some t)
            /\ Simulator.made s' <= n + length (filter (fun c => c = true) calls)).
  { induction calls as [|[] rest IH]; intros s n Halive Hthread Hmade.
    - cbn. split; [exact Halive|]. split; [exact Hthread|lia].
    - cbn [Simulator.requests foldl]. rewrite filter_cons_True by reflexivity.
      cbn [length].
      destruct (IH (Simulator.start s) (S n)) as (H1 & H2 & H3).
      + unfold Simulator.start. destruct (Simulator.running s) eqn:Hr.
        * rewrite Hr. exact Halive.
        * cbn. rewrite Halive. reflexivity.
      + unfold Simulator.start. destruct (Simulator.running s) eqn:Hr;
          [intros _; apply Hthread; reflexivity|cbn; eauto].
      + unfold Simulator.start. destruct (Simulator.running s); cbn; lia.
      + split; [exact H1|]. split; [exact H2|]. unfold Simulator.requests in H3. lia.
    - cbn [Simulator.requests foldl]. rewrite filter_cons_False by discriminate.
      apply (IH (Simulator.stop s) n).
      + unfold Simulator.stop. cbn. rewrite Halive.
        destruct (Simulator.running s), (Simulator.thread s) as [t|]; cbn;
          try reflexivity.
        rewrite decide_False by (intros H; apply H; reflexivity). reflexivity.
      + unfold Simulator.stop. cbn. discriminate.
      + unfold Simulator.stop. cbn. exact Hmade. }
  destruct (H Simulator.init 0) as (H1 & H2 & H3);
    [reflexivity|discriminate|cbn; lia|].
  split; [exact H1|]. split; [|split; [exact H2|exact H3]].
  rewrite H1. destruct (Simulator.running _); [|cbn; lia].
  destruct (Simulator.thread _); cbn; lia.
Qed.

(** * From the edge server into the table *)

Section EndToEnd.
Context `{RT : PyRuntime}.
Variable execute_insert : Central.row -> result unit.

Lemma required_fields_values (r : json) (processed : Edge.reading) (payload : json) :
  Edge.required_fields r processed = Ok payload ->
  exists t h z pk pc es,
    rbind (subscript r "temperature") py_float = Ok t
    /\ rbind (subscript r "humidity") py_float = Ok h
    /\ subscript r "zone_distribution" = Ok z
    /\ subscript r "is_peak_hour" = Ok pk
    /\ rbind (subscript r "per_capita_consumption") py_float = Ok pc
    /\ rbind (subscript r "efficiency_score") py_float = Ok es
    /\ payload
       = JObj [("city", JStr (Edge.city processed));
               ("timestamp", JStr (Edge.timestamp processed));
               ("voltage", JFloat (Edge.voltage processed));
               ("current", JFloat (Edge.current processed));
               ("power_consumption", JFloat (Edge.power_consumption processed));
               ("status", JStr (Edge.status processed));
               ("flagged", JBool (Edge.flagged processed));
               ("anomaly", JBool (Edge.anomaly processed));
               ("temperature", JFloat t);
               ("humidity", JFloat h);
               ("zone_distribution", z);
               ("is_peak_hour", JBool (truthy pk));
               ("per_capita_consumption", JFloat pc);
               ("efficiency_score", JFloat es)].
Proof.
  unfold Edge.required_fields. intros H.
  apply rbind_ok in H as (t & Ht & H).
  apply rbind_ok in H as (h & Hh & H).
  apply rbind_ok in H as (z & Hz & H).
  apply rbind_ok in H as (pk & Hpk & H).
  apply rbind_ok in H as (pc & Hpc & H).
  apply rbind_ok in H as (es & Hes & H).
  injection H as <-.
  exists t, h, z, pk, pc, es. repeat split; assumption.
Qed.


(** Which payloads of the edge server [requests] can serialise. *)
Lemma edge_payload_compliant (p : Edge.reading) (t h pc es : float) (z : json)
    (pk : bool) :
  json_compliant
    (JObj [("city", JStr (Edge.city p));
           ("timestamp", JStr (Edge.timestamp p));
           ("voltage", JFloat (Edge.voltage p));
           ("current", JFloat (Edge.current p));
           ("power_consumption", JFloat (Edge.power_consumption p));
           ("status", JStr (Edge.status p));
           ("flagged", JBool (Edge.flagged p));
           ("anomaly", JBool (Edge.anomaly p));
           ("temperature", JFloat t);
           ("humidity", JFloat h);
           ("zone_distribution", z);
           ("is_peak_hour", JBool pk);
           ("per_capita_consumption", JFloat pc);
           ("efficiency_score", JFloat es)]) = true
  <-> PrimFloat.is_finite (Edge.voltage p) = true
      /\ PrimFloat.is_finite (Edge.current p) = true
      /\ PrimFloat.is_finite (Edge.power_consumption p) = true
      /\ PrimFloat.is_finite t = true /\ PrimFloat.is_finite h = true
      /\ json_compliant z = true
      /\ PrimFloat.is_finite pc = true /\ PrimFloat.is_finite es = true.
Proof.
  cbn [json_compliant existsb String.eqb Ascii.eqb Bool.eqb orb andb].
  rewrite !andb_true_iff. tauto.
Qed.

(** The payload of a validated reading can be serialised exactly when no
    number of the reading is a NaN or an infinity. *)
Lemma payload_compliant_sendable (r : json) (c processed : Edge.reading)
    (payload : json) :
  Edge.clean_data r = Ok c ->
  Edge.voltage processed = Edge.voltage c ->
  Edge.current processed = Edge.current c ->
  Edge.power_consumption processed = Edge.power_consumption c ->
  Edge.required_fields r processed = Ok payload ->
  json_compliant payload = true <-> Claims.sendable r.
Proof.
  intros Hc Hv Hi Hp Hpayload.
  destruct (clean_data_fields r c Hc) as (Hcv & Hci & Hcp & _).
  destruct (required_fields_values r processed payload Hpayload)
    as (t & h & z & pk & pc & es & Ht & Hh & Hz & Hpk & Hpc & Hes & ->).
  rewrite edge_payload_compliant, Hv, Hi, Hp.
  unfold Claims.sendable, Claims.finite.
  rewrite Hcv, Hci, Hcp, Ht, Hh, Hz, Hpc, Hes.
  split.
  - intros (H1 & H2 & H3 & H4 & H5 & H6 & H7 & H8).
    repeat split; intros x [= <-]; assumption.
  - intros (H1 & H2 & H3 & H4 & H5 & H6 & H7 & H8).
    repeat split; eauto.
Qed.

(** A store that fails on a payload and stays as it is: the loop leaves it
    as it is. *)
Lemma forward_store_unchanged (attempts : list nat) (payload : json)
    (w : Edge.world (list Central.row)) :
  (forall table,
     snd (Central.central_session execute_insert table payload) = table) ->
  Edge.store (snd (Edge.forward (Central.central_session execute_insert)
                     attempts payload w)) = Edge.store w.
Proof.
  intros Hsame. revert w.
  induction attempts as [|a rest IH]; intros w; [reflexivity|].
  cbn [Edge.forward]. unfold Edge.session_post_call.
  pose proof (Hsame (Edge.store w)) as Hw.
  destruct (Central.central_session execute_insert (Edge.store w) payload)
    as [o s'].
  cbn [snd] in Hw. subst s'.
  assert (Hretry : forall (final : http_response) w1,
            Edge.store w1 = Edge.store w ->
            Edge.store
              (snd (if decide (a < Edge.max_retries - 1)
                    then Edge.bind (Edge.emit (Edge.EvSleep (Edge.retry_delay * 2 ^ Z.of_nat a)))
                           (fun _ => Edge.forward (Central.central_session execute_insert)
                                       rest payload) w1
                    else (Ok (Some final), w1))) = Edge.store w).
  { intros final w1 Hw1. case_decide; [|exact Hw1].
    unfold Edge.bind, Edge.emit. rewrite IH. exact Hw1. }
  destruct o as [status_code body|e].
  - destruct (status_code =? 200)%Z; [reflexivity|].
    destruct (rbind body _) as [error_msg|e]; [apply Hretry; reflexivity|].
    destruct (is_request_exception e); [apply Hretry|]; reflexivity.
  - destruct (is_request_exception e); [apply Hretry|]; reflexivity.
Qed.

(** A payload that the store never takes: three calls, the failed outcome,
    and the table as it was. *)
Lemma never_taken (r : json) (w : Edge.world (list Central.row)) (j : json)
    (k : pykey) (c : Edge.reading) (payload : json) :
  subscript r "city" = Ok j -> dict_key j = Key k ->
  Edge.clean_data r = Ok c ->
  Edge.required_fields r (snd (Edge.detect_anomalies (Edge.readings_buffer w) k c))
  = Ok payload ->
  (forall table,
     Claims.fails (fst (Central.central_session execute_insert table payload))
     /\ snd (Central.central_session execute_insert table payload) = table) ->
  let result := Edge.receive_data (Central.central_session execute_insert) r w in
  Claims.failed (Ok (fst result))
  /\ Claims.count_posts (Claims.added (Edge.trace w) (Edge.trace (snd result)))
     = Edge.max_retries
  /\ Edge.store (snd result) = Edge.store w.
Proof.
  intros Hj Hk Hc Hpayload Hrefused result.
  subst result. unfold Edge.receive_data, Edge.bind.
  rewrite (prepare_ok r w j k c _ Hj Hk Hc Hpayload).
  match goal with
  | |- context [Edge.forward ?sp _ payload ?w1] =>
      destruct (forward_from sp Edge.max_retries 0 payload w1 eq_refl)
        as (m & Hm & Htrace & _ & Hall & _); [unfold Edge.max_retries; lia|];
      pose proof (forward_store_unchanged (seq 0 Edge.max_retries) payload w1) as Hstore
  end.
  cbn [Edge.store] in Hstore, Hall.
  specialize (Hstore (fun table => proj2 (Hrefused table))).
  destruct Hall as (-> & response & Hres & Hcode & Hstatus).
  { apply (outcomes_all_fail execute_insert); apply Hrefused. }
  destruct (Edge.forward _ _ payload _) as [res w2].
  cbn [fst snd] in *. subst res.
  split; [exists response; auto|].
  split; [|exact Hstore].
  cbn [snd]. rewrite Htrace. cbn [Edge.trace]. rewrite <- app_assoc, added_app.
  cbn [app]. unfold Claims.count_posts.
  rewrite filter_cons_False by (cbn; discriminate).
  apply count_posts_from.
Qed.


(** X15.  A reading with a NaN or an infinity among the numbers of its
    payload is never stored: it passes validation and the detector, every
    one of the three calls of [session.post] raises before anything is
    sent, the caller gets the failed outcome and the table is as it was. *)
Theorem unsendable_reading_is_never_stored (r : json)
    (w : Edge.world (list Central.row)) (j : json) (k : pykey) (c : Edge.reading) :
  Edge.clean_data r = Ok c ->
  subscript r "city" = Ok j -> dict_key j = Key k ->
  Claims.enriched r ->
  ~ Claims.sendable r ->
  let result := Edge.receive_data (Central.central_session execute_insert) r w in
  fst result = Some Edge.network_error
  /\ Claims.count_posts (Claims.added (Edge.trace w) (Edge.trace (snd result)))
     = Edge.max_retries
  /\ Edge.store (snd result) = Edge.store w.
Proof.
  intros Hc Hj Hk Hen Hnot result.
  set (scored := Edge.detect_anomalies (Edge.readings_buffer w) k c).
  destruct (required_fields_enriched r (snd scored) Hen)
    as (t & h & z & pk & pc & es & Hpayload).
  match type of Hpayload with _ = Ok ?p => set (payload := p) in * end.
  assert (Hrefused : json_compliant payload = false).
  { destruct (json_compliant payload) eqn:Hcompliant; [|reflexivity].
    exfalso. apply Hnot.
    exact (proj1 (payload_compliant_sendable r c (snd scored) _ Hc
                    eq_refl eq_refl eq_refl Hpayload) Hcompliant). }
  assert (Hraise : forall table,
            Central.central_session execute_insert table payload
            = (Edge.PostRaises
                 (RequestException "Out of range float values are not JSON compliant"),
               table)).
  { intros table. unfold Central.central_session. rewrite Hrefused. reflexivity. }
  destruct (never_taken r w j k c payload Hj Hk Hc Hpayload) as (Hfailed & Hcount & Hstore).
  { intros table. rewrite Hraise. split; reflexivity. }
  split; [|split; [exact Hcount|exact Hstore]].
  subst result. unfold Edge.receive_data, Edge.bind.
  rewrite (prepare_ok r w j k c _ Hj Hk Hc Hpayload).
  match goal with
  | |- context [Edge.forward ?sp _ payload ?w1] =>
      destruct (forward_reports sp Edge.max_retries 0 payload w1 eq_refl)
        as (o & Hlast & Hres)
  end.
  { unfold Edge.max_retries. lia. }
  { apply (outcomes_all_fail execute_insert); rewrite Hraise; reflexivity. }
  unfold Edge.max_retries in Hlast. cbn [Claims.outcomes] in Hlast.
  rewrite !Hraise in Hlast. cbn [last] in Hlast. injection Hlast as <-.
  destruct (Edge.forward _ _ payload _) as [res w2].
  cbn [fst] in Hres. subst res. reflexivity.
Qed.

(** X14.  The edge server forwards what the store cannot take: a reading
    that passes validation with the enrichment fields but whose
    [zone_distribution] is no object is posted three times, each time
    answered 500 by [store_data], which stores nothing (or, with a NaN or
    an infinity in it, refused by [requests] each time); the caller gets
    the failed outcome. *)
Theorem zone_distribution_must_be_an_object (r : json)
    (w : Edge.world (list Central.row)) (j : json) (k : pykey) (c : Edge.reading)
    (z : json) :
  Edge.clean_data r = Ok c ->
  subscript r "city" = Ok j -> dict_key j = Key k ->
  Claims.enriched r ->
  subscript r "zone_distribution" = Ok z ->
  (forall zd, z <> JObj zd) ->
  let result := Edge.receive_data (Central.central_session execute_insert) r w in
  Claims.failed (Ok (fst result))
  /\ Claims.count_posts (Claims.added (Edge.trace w) (Edge.trace (snd result)))
     = Edge.max_retries
  /\ Edge.store (snd result) = Edge.store w.
Proof.
  intros Hc Hj Hk Hen Hz Hnot result.
  set (scored := Edge.detect_anomalies (Edge.readings_buffer w) k c).
  destruct (required_fields_enriched r (snd scored) Hen)
    as (t0 & h0 & z0 & pk0 & pc0 & es0 & Hpayload).
  destruct (required_fields_values r (snd scored) _ Hpayload)
    as (t & h & z' & pk & pc & es & _ & _ & Hz' & _ & _ & _ & Heq).
  rewrite Hz in Hz'. injection Hz' as <-.
  rewrite Heq in Hpayload. clear Heq t0 h0 z0 pk0 pc0 es0.
  match type of Hpayload with _ = Ok ?p => set (payload := p) in * end.
  apply (never_taken r w j k c payload Hj Hk Hc Hpayload).
  intros table. unfold Central.central_session.
  destruct (json_compliant payload); [|split; reflexivity].
  unfold Central.store_data.
  assert (Hp : Central.insert_params payload = Raise (AttributeError "get")).
  { subst payload. unfold Central.insert_params.
    cbn [dict_get subscript assoc String.eqb Ascii.eqb Bool.eqb default from_option
         id rbind truthy py_float].
    destruct z; try reflexivity. exfalso. eapply Hnot. reflexivity. }
  rewrite Hp. split; [cbn; lia|reflexivity].
Qed.

End EndToEnd.


(** A reading with an infinite voltage. *)
Lemma unsendable_reading_is_never_stored_witness :
  let r := Sample.mumbai infinity 10 2310 in
  let result := Edge.receive_data (RT := Sample.runtime)
                  (Central.central_session (RT := Sample.runtime) Claims.always_inserts)
                  r (Claims.fresh StatsSample.table) in
  ~ Claims.sendable (RT := Sample.runtime) r
  /\ fst result = Some Edge.network_error
  /\ Claims.count_posts (Edge.trace (snd result)) = 3
  /\ Edge.store (snd result) = StatsSample.table.
Proof.
  intros r result.
  assert (Hen : Claims.enriched (RT := Sample.runtime) r).
  { unfold Claims.enriched, Claims.numeric.
    repeat split; eexists; vm_compute; reflexivity. }
  assert (Hnot : ~ Claims.sendable (RT := Sample.runtime) r).
  { intros (Hv & _). specialize (Hv infinity eq_refl). vm_compute in Hv. discriminate. }
  split; [exact Hnot|].
  exact (unsendable_reading_is_never_stored (RT := Sample.runtime)
           Claims.always_inserts r (Claims.fresh StatsSample.table)
           (JStr "Mumbai") (KStr "Mumbai")
           {| Edge.voltage := infinity; Edge.current := 10;
              Edge.power_consumption := 2310; Edge.city := "Mumbai";
              Edge.timestamp := "2024-01-15T10:30:00"; Edge.status := "invalid";
              Edge.flagged := true; Edge.anomaly := false |}
           eq_refl eq_refl eq_refl Hen Hnot).
Defined.

(** A reading whose zones are given as a text. *)
Lemma zone_distribution_must_be_an_object_witness :
  let r := Sample.request (JStr "Mumbai") 231 10 2310
             [("temperature", JFloat 30.5); ("humidity", JFloat 70);
              ("zone_distribution", JStr "n/a"); ("is_peak_hour", JBool false);
              ("per_capita_consumption", JFloat 49.5);
              ("efficiency_score", JFloat 0.875)] in
  let result := Edge.receive_data (RT := Sample.runtime)
                  (Central.central_session (RT := Sample.runtime) Claims.always_inserts)
                  r (Claims.fresh StatsSample.table) in
  Claims.enriched (RT := Sample.runtime) r
  /\ Claims.failed (Ok (fst result))
  /\ Claims.count_posts (Edge.trace (snd result)) = 3
  /\ Edge.store (snd result) = StatsSample.table.
Proof.
  intros r result.
  assert (Hen : Claims.enriched (RT := Sample.runtime) r).
  { unfold Claims.enriched, Claims.numeric.
    repeat split; eexists; vm_compute; reflexivity. }
  split; [exact Hen|].
  exact (zone_distribution_must_be_an_object (RT := Sample.runtime)
           Claims.always_inserts r (Claims.fresh StatsSample.table)
           (JStr "Mumbai") (KStr "Mumbai")
           {| Edge.voltage := 231; Edge.current := 10;
              Edge.power_consumption := 2310; Edge.city := "Mumbai";
              Edge.timestamp := "2024-01-15T10:30:00"; Edge.status := "valid";
              Edge.flagged := false; Edge.anomaly := false |}
           (JStr "n/a") eq_refl eq_refl eq_refl Hen eq_refl
           ltac:(discriminate)).
Defined.
